(** * app_web.py: the Streamlit question-answering page over SEC 10-K filings

    A shallow embedding of [src/app_web.py].  The script is re-executed from
    top to bottom on every user interaction; it talks to three external
    collaborators (the Neo4j vector index, the chain constructor and the chain
    call) and renders Streamlit elements.  The embedding keeps

    - the process-wide state: the external world, the object allocator and the
      two [st.cache_resource] caches;
    - the session-wide state: [st.session_state];
    - the effects of one run: the elements rendered, the script functions
      invoked and the external calls made, in chronological order;
    - the three ways a Python computation ends: normally, by raising an
      [Exception], or by [st.stop()]. *)

From Stdlib Require Import String Ascii List Bool Arith Lia.
From stdpp Require Import gmap strings list fin_maps.

Open Scope string_scope.
Open Scope list_scope.

(** ** Python values that cross the interfaces of the script *)

(** Keyword arguments of [Neo4jVector.from_existing_graph]. *)
Inductive PyVal :=
| PyNone
| PyStr (s : string)
| PyStrList (l : list string)
| PyOpenAIEmbeddings (api_key : string).

Definition Kwargs := list (string * PyVal).

Fixpoint kwarg (name : string) (kw : Kwargs) : option PyVal :=
  match kw with
  | [] => None
  | (n, v) :: rest => if String.eqb n name then Some v else kwarg name rest
  end.

(** [ChatOpenAI(temperature=0, api_key=api_key)] *)
Record ChatOpenAI := { temperature : nat; llm_api_key : string }.

(** The object returned by [Neo4jVector.from_existing_graph]; [vs_ref] is the
    identity of the Python object, [vs_kwargs] what it was constructed from. *)
Record VectorStore := { vs_ref : nat; vs_kwargs : Kwargs }.

(** [_vector_store.as_retriever()] *)
Record Retriever := { retriever_of : VectorStore }.

(** Keyword arguments of [RetrievalQAWithSourcesChain.from_chain_type]. *)
Record ChainArgs := { llm : ChatOpenAI; chain_type : string; retriever : Retriever }.

(** The chain object; [chain_ref] is its identity. *)
Record Chain := { chain_ref : nat; chain_args : ChainArgs }.

(** The dict returned by calling the chain. *)
Definition Response := list (string * string).

Fixpoint dict_get (key : string) (d : Response) : option string :=
  match d with
  | [] => None
  | (k, v) :: rest => if String.eqb k key then Some v else dict_get key rest
  end.

(** Python truthiness of a [str]: every non-empty string is true, whatever
    its characters. *)
Definition truthy (s : string) : bool :=
  match s with
  | EmptyString => false
  | String _ _ => true
  end.

(** [x or default] where [x] is [None] or a [str]. *)
Definition py_or (x : option string) (default : string) : string :=
  match x with
  | Some s => if truthy s then s else default
  | None => default
  end.

(** [str.isspace]-style blank test: the empty string and the strings made of
    ASCII whitespace only. *)
Definition is_space (c : ascii) : bool :=
  match nat_of_ascii c with
  | 9 | 10 | 11 | 12 | 13 | 32 => true
  | _ => false
  end.

Fixpoint is_blank (s : string) : bool :=
  match s with
  | EmptyString => true
  | String c rest => is_space c && is_blank rest
  end.

(** [needle in haystack] *)
Definition contains (needle haystack : string) : Prop :=
  exists before after, haystack = before +:+ needle +:+ after.

(** ** Streamlit elements and the trace of a run *)

Inductive Element :=
| StTitle (body : string)
| StMarkdown (body : string)
| StTextInput (label : string) (shown : string)
| StWarning (body : string)
| StError (body : string)
| StWrite (body : string)
| StSpinner (text : string).

(** A value passed to one of the script's own functions: a [str] by value, an
    object by reference. *)
Inductive PyArg :=
| ArgStr (s : string)
| ArgRef (ref : nat)
| ArgNone.

Inductive ExternCall :=
| CallFromExistingGraph (kw : Kwargs)
| CallFromChainType (args : ChainArgs)
| CallChain (chain : Chain) (question : string).

Inductive Event :=
| Render (e : Element)
| Invoke (fn : string) (args : list (string * PyArg))
| Extern (c : ExternCall).

Definition is_invoke (ev : Event) : bool :=
  match ev with Invoke _ _ => true | _ => false end.

Definition is_extern (ev : Event) : bool :=
  match ev with Extern _ => true | _ => false end.

(** The events that reach the vector index or the chat model, or enter one of
    the three functions that do. *)
Definition is_call (ev : Event) : bool := is_invoke ev || is_extern ev.

Fixpoint rendered (evs : list Event) : list Element :=
  match evs with
  | [] => []
  | Render e :: rest => e :: rendered rest
  | _ :: rest => rendered rest
  end.

Definition is_error (e : Element) : bool :=
  match e with StError _ => true | _ => false end.

Definition is_transient (e : Element) : bool :=
  match e with StSpinner _ => true | _ => false end.

(** What the page shows once a run is over: the elements of that run, the
    spinner being removed when its [with] block is left.  Elements of earlier
    runs that the run did not emit again are cleared. *)
Definition page (evs : list Event) : list Element :=
  List.filter (fun e => negb (is_transient e)) (rendered evs).

(** ** [st.cache_resource] *)

#[global] Instance PyArg_eq_dec : EqDecision PyArg.
Proof. solve_decision. Defined.

Definition PyArg_encode (a : PyArg) : string + (nat + unit) :=
  match a with
  | ArgStr s => inl s
  | ArgRef r => inr (inl r)
  | ArgNone => inr (inr tt)
  end.

Definition PyArg_decode (x : string + (nat + unit)) : PyArg :=
  match x with
  | inl s => ArgStr s
  | inr (inl r) => ArgRef r
  | inr (inr _) => ArgNone
  end.

#[global] Instance PyArg_countable : Countable PyArg.
Proof.
  apply (inj_countable' PyArg_encode PyArg_decode).
  intros []; reflexivity.
Defined.

(** The key of a cached call: the (name, value) pairs of the parameters, those
    whose name starts with an underscore left out. *)
Definition CacheKey := list (string * PyArg).

Definition is_hashed (p : string * PyArg) : bool := negb (String.prefix "_" (fst p)).

Definition cache_key (params : list (string * PyArg)) : CacheKey :=
  List.filter is_hashed params.

(** A cache entry: the value returned, and the elements the function body
    rendered, which a cache hit renders again. *)
Record Cached (A : Type) := MkCached { cached_value : A; cached_elements : list Element }.
Arguments MkCached {A} _ _.
Arguments cached_value {A} _.
Arguments cached_elements {A} _.

Abbreviation CacheKey_map A := (gmap (list (string * PyArg)) (Cached A)).

(** ** Outcomes of Python computations *)

(** How a call into an external library ends: it returns, or it raises an
    [Exception] [e] with [str(e) = msg]. *)
Inductive PyResult (A : Type) :=
| Returns (a : A)
| Raises (msg : string).
Arguments Returns {A} _.
Arguments Raises {A} _.

(** How a piece of the script ends: normally, by an [Exception] that
    propagates, or by [st.stop()]. *)
Inductive Outcome (A : Type) :=
| Normal (a : A)
| Raised (msg : string)
| Stopped.
Arguments Normal {A} _.
Arguments Raised {A} _.
Arguments Stopped {A}.

(** What the two text fields hold in a run.  [Some t]: the widget returns
    [t].  [None]: the widget has no text of its own in this run and returns
    the [value=] it is given.  How many gestures of the user lead to either
    is the business of the widget, not of the script. *)
Record Input := { key_field : option string; question_field : option string }.

(** The external collaborators.  [W] is the state of the world outside the
    process (the graph database, the OpenAI services); each call may inspect
    and change it, and returns or raises.  [from_existing_graph] stands for
    the evaluation of the whole call expression of lines 32-41, the
    embeddings constructor included, and [from_chain_type] likewise for lines
    52-56.  [environ] is the process environment once [load_dotenv()] has
    run; the libraries can read it too, so the oracles of an instance may
    depend on its [environ].  [textwrap_fill text width] is
    [textwrap.fill(text, width=width)]. *)
Class Externals := {
  W : Type;
  environ : gmap string string;
  from_existing_graph : Kwargs -> W -> PyResult unit * W;
  from_chain_type : ChainArgs -> W -> PyResult unit * W;
  chain_call : Chain -> string -> W -> PyResult Response * W;
  textwrap_fill : string -> nat -> string
}.

Section App.

Context `{ext : Externals}.

Record State := MkState {
  world : W;
  next_ref : nat;
  session_state : gmap string string;
  vector_store_cache : CacheKey_map (option VectorStore);
  qa_chain_cache : CacheKey_map (option Chain)
}.

Definition set_world (w : W) (s : State) : State :=
  MkState w (next_ref s) (session_state s) (vector_store_cache s) (qa_chain_cache s).

Definition set_next_ref (n : nat) (s : State) : State :=
  MkState (world s) n (session_state s) (vector_store_cache s) (qa_chain_cache s).

Definition set_session_state (m : gmap string string) (s : State) : State :=
  MkState (world s) (next_ref s) m (vector_store_cache s) (qa_chain_cache s).

Definition set_vector_store_cache (c : CacheKey_map (option VectorStore)) (s : State) : State :=
  MkState (world s) (next_ref s) (session_state s) c (qa_chain_cache s).

Definition set_qa_chain_cache (c : CacheKey_map (option Chain)) (s : State) : State :=
  MkState (world s) (next_ref s) (session_state s) (vector_store_cache s) c.

(** ** The monad of the script: state, trace and outcome *)

Definition M (A : Type) : Type := State -> Outcome A * State * list Event.

Definition ret {A} (a : A) : M A := fun s => (Normal a, s, []).

Definition bind {A B} (m : M A) (k : A -> M B) : M B :=
  fun s =>
    match m s with
    | (Normal a, s1, evs1) =>
        match k a s1 with
        | (o, s2, evs2) => (o, s2, evs1 ++ evs2)
        end
    | (Raised msg, s1, evs1) => (Raised msg, s1, evs1)
    | (Stopped, s1, evs1) => (Stopped, s1, evs1)
    end.

Notation "x <- m ;; k" := (bind m (fun x => k))
  (at level 100, m at next level, right associativity).
Notation "m ;; k" := (bind m (fun _ => k))
  (at level 100, right associativity).

Definition emit (ev : Event) : M unit := fun s => (Normal tt, s, [ev]).

Definition raise {A} (msg : string) : M A := fun s => (Raised msg, s, []).

(** [try: body / except Exception as e: handler(str(e))].  What the body did
    before it raised stays done. *)
Definition try_except {A} (body : M A) (handler : string -> M A) : M A :=
  fun s =>
    match body s with
    | (Raised msg, s1, evs1) =>
        match handler msg s1 with
        | (o, s2, evs2) => (o, s2, evs1 ++ evs2)
        end
    | r => r
    end.

Definition when (b : bool) (m : M unit) : M unit := if b then m else ret tt.

(** *** Streamlit commands *)

Definition st_title (body : string) : M unit := emit (Render (StTitle body)).
Definition st_markdown (body : string) : M unit := emit (Render (StMarkdown body)).
Definition st_warning (body : string) : M unit := emit (Render (StWarning body)).
Definition st_error (body : string) : M unit := emit (Render (StError body)).
Definition st_write (body : string) : M unit := emit (Render (StWrite body)).
Definition st_spinner (text : string) : M unit := emit (Render (StSpinner text)).

(** [st.stop()]: the run ends here; the script runner catches the signal. *)
Definition st_stop {A} : M A := fun s => (Stopped, s, []).

(** [st.text_input(label, value=value)]: the field shows, and the call
    returns, the text the widget holds, or [value] if it holds none of its
    own. *)
Definition st_text_input (label value : string) (typed : option string) : M string :=
  let shown := default value typed in
  emit (Render (StTextInput label shown)) ;; ret shown.

(** [if name not in st.session_state: st.session_state.name = value] *)
Definition session_setdefault (name value : string) : M unit :=
  fun s =>
    match session_state s !! name with
    | Some _ => (Normal tt, s, [])
    | None => (Normal tt, set_session_state (<[name := value]> (session_state s)) s, [])
    end.

(** [st.session_state.name] *)
Definition session_get (name : string) : M string :=
  fun s =>
    match session_state s !! name with
    | Some v => (Normal v, s, [])
    | None => (Raised ("st.session_state has no attribute " +:+ name), s, [])
    end.

(** [st.session_state.name = value] *)
Definition session_set (name value : string) : M unit :=
  fun s => (Normal tt, set_session_state (<[name := value]> (session_state s)) s, []).

(** *** The decorator *)

(** [@st.cache_resource]: a call whose key is in the cache returns the cached
    value without running the body and renders the cached elements again; a
    call whose key is not runs the body and, when it returns, stores its
    value and the elements it rendered. *)
Definition cache_resource {A} (fn : string)
    (cache : State -> CacheKey_map A)
    (set_cache : CacheKey_map A -> State -> State)
    (params : list (string * PyArg)) (body : M A) : M A :=
  fun s =>
    let key := cache_key params in
    match cache s !! key with
    | Some c =>
        (Normal (cached_value c), s, Invoke fn params :: map Render (cached_elements c))
    | None =>
        match body s with
        | (Normal v, s1, evs) =>
            (Normal v,
             set_cache (<[key := MkCached v (rendered evs)]> (cache s1)) s1,
             Invoke fn params :: evs)
        | (o, s1, evs) => (o, s1, Invoke fn params :: evs)
        end
    end.

(** *** Calls into the libraries *)

Definition Neo4jVector_from_existing_graph (kw : Kwargs) : M VectorStore :=
  fun s =>
    match from_existing_graph kw (world s) with
    | (Returns _, w) =>
        (Normal {| vs_ref := next_ref s; vs_kwargs := kw |},
         set_next_ref (S (next_ref s)) (set_world w s),
         [Extern (CallFromExistingGraph kw)])
    | (Raises msg, w) => (Raised msg, set_world w s, [Extern (CallFromExistingGraph kw)])
    end.

(** [_vector_store.as_retriever()]; on [None] the attribute lookup raises. *)
Definition as_retriever (_vector_store : option VectorStore) : M Retriever :=
  match _vector_store with
  | Some vs => ret {| retriever_of := vs |}
  | None => raise "'NoneType' object has no attribute 'as_retriever'"
  end.

Definition RetrievalQAWithSourcesChain_from_chain_type (args : ChainArgs) : M Chain :=
  fun s =>
    match from_chain_type args (world s) with
    | (Returns _, w) =>
        (Normal {| chain_ref := next_ref s; chain_args := args |},
         set_next_ref (S (next_ref s)) (set_world w s),
         [Extern (CallFromChainType args)])
    | (Raises msg, w) => (Raised msg, set_world w s, [Extern (CallFromChainType args)])
    end.

(** [qa_chain({"question": question}, return_only_outputs=True)]; calling
    [None] raises. *)
Definition call_chain (qa_chain : option Chain) (question : string) : M Response :=
  match qa_chain with
  | Some chain =>
      fun s =>
        match chain_call chain question (world s) with
        | (Returns response, w) =>
            (Normal response, set_world w s, [Extern (CallChain chain question)])
        | (Raises msg, w) => (Raised msg, set_world w s, [Extern (CallChain chain question)])
        end
  | None => raise "'NoneType' object is not callable"
  end.

(** [response[key]]; a missing key raises [KeyError(key)], whose [str] is the
    quoted key. *)
Definition getitem (response : Response) (key : string) : M string :=
  match dict_get key response with
  | Some v => ret v
  | None => raise ("'" +:+ key +:+ "'")
  end.

(** ** The script *)

(** Lines 13-16. *)
Definition os_getenv (name : string) : option string := environ !! name.

Definition NEO4J_URI : option string := os_getenv "NEO4J_URI".
Definition NEO4J_USERNAME : option string := os_getenv "NEO4J_USERNAME".
Definition NEO4J_PASSWORD : option string := os_getenv "NEO4J_PASSWORD".
Definition NEO4J_DATABASE : string := py_or (os_getenv "NEO4J_DATABASE") "neo4j".

(** Lines 19-22. *)
Definition VECTOR_INDEX_NAME : string := "form_10k_chunks".
Definition VECTOR_NODE_LABEL : string := "TextChunk".
Definition VECTOR_SOURCE_PROPERTY : string := "text".
Definition VECTOR_EMBEDDING_PROPERTY : string := "textEmbedding".

Definition py_opt (x : option string) : PyVal :=
  match x with
  | Some s => PyStr s
  | None => PyNone
  end.

Definition arg_of_store (v : option VectorStore) : PyArg :=
  match v with
  | Some vs => ArgRef (vs_ref vs)
  | None => ArgNone
  end.

Definition arg_of_chain (c : option Chain) : PyArg :=
  match c with
  | Some ch => ArgRef (chain_ref ch)
  | None => ArgNone
  end.

(** The keyword arguments of the call of lines 32-41. *)
Definition graph_kwargs (api_key : string) : Kwargs :=
  [ ("embedding", PyOpenAIEmbeddings api_key);
    ("url", py_opt NEO4J_URI);
    ("username", py_opt NEO4J_USERNAME);
    ("password", py_opt NEO4J_PASSWORD);
    ("index_name", PyStr VECTOR_INDEX_NAME);
    ("node_label", PyStr VECTOR_NODE_LABEL);
    ("text_node_properties", PyStrList [VECTOR_SOURCE_PROPERTY]);
    ("embedding_node_property", PyStr VECTOR_EMBEDDING_PROPERTY) ].

(** Lines 29-45. *)
Definition initialize_vector_store_body (api_key : string) : M (option VectorStore) :=
  try_except
    (vector_store <- Neo4jVector_from_existing_graph (graph_kwargs api_key) ;;
     ret (Some vector_store))
    (fun e =>
       st_error ("Error initializing vector store: " +:+ e) ;;
       ret None).

Definition initialize_vector_store (api_key : string) : M (option VectorStore) :=
  cache_resource "initialize_vector_store" vector_store_cache set_vector_store_cache
    [("api_key", ArgStr api_key)]
    (initialize_vector_store_body api_key).

(** Lines 48-60. *)
Definition initialize_qa_chain_body (_vector_store : option VectorStore) (api_key : string)
    : M (option Chain) :=
  try_except
    (retriever <- as_retriever _vector_store ;;
     qa_chain <- RetrievalQAWithSourcesChain_from_chain_type
                   {| llm := {| temperature := 0; llm_api_key := api_key |};
                      chain_type := "stuff";
                      retriever := retriever |} ;;
     ret (Some qa_chain))
    (fun e =>
       st_error ("Error initializing QA chain: " +:+ e) ;;
       ret None).

Definition initialize_qa_chain (_vector_store : option VectorStore) (api_key : string)
    : M (option Chain) :=
  cache_resource "initialize_qa_chain" qa_chain_cache set_qa_chain_cache
    [("_vector_store", arg_of_store _vector_store); ("api_key", ArgStr api_key)]
    (initialize_qa_chain_body _vector_store api_key).

(** Lines 63-69. *)
Definition get_answer (question : string) (qa_chain : option Chain) : M (option string) :=
  emit (Invoke "get_answer" [("question", ArgStr question); ("qa_chain", arg_of_chain qa_chain)]) ;;
  try_except
    (response <- call_chain qa_chain question ;;
     answer <- getitem response "answer" ;;
     ret (Some answer))
    (fun e =>
       st_error ("Error getting answer: " +:+ e) ;;
       ret None).

Definition is_None {A} (x : option A) : bool :=
  match x with
  | None => true
  | Some _ => false
  end.

Definition intro_text : string := "
This application allows you to ask questions about companies based on their SEC 10-K filings.
The system uses a knowledge graph built from multiple companies' filings to provide accurate and contextual answers.
".

Definition examples_text : string := "
    ### Example Questions:
    - What is Netflix's primary business?
    - Where is Apple headquartered?
    - What are the top risks mentioned in Johnson & Johnson's 10-K?
    - Where are the primary suppliers for Tesla?
    - How is ExxonMobil addressing climate change and the energy transition?
    ".

Definition key_label : string := "Enter your OpenAI API Key:".
Definition question_label : string := "Enter your question about any company:".
Definition key_warning : string := "Please enter your OpenAI API key to continue.".
Definition answer_heading : string := "### Answer:".

(** Lines 117-122. *)
Definition process_question (question : string) (qa_chain : option Chain) : M unit :=
  if truthy question then
    st_spinner "Searching for relevant information..." ;;
    answer <- get_answer question qa_chain ;;
    match answer with
    | Some text =>
        if truthy text then
          st_markdown answer_heading ;;
          st_write (textwrap_fill text 80)
        else ret tt
    | None => ret tt
    end
  else ret tt.

(** Lines 90-124. *)
Definition main_block (inp : Input) (api_key : string) : M unit :=
  if truthy api_key then
    session_set "openai_api_key" api_key ;;
    vector_store <- initialize_vector_store api_key ;;
    when (is_None vector_store) st_stop ;;
    qa_chain <- initialize_qa_chain vector_store api_key ;;
    when (is_None qa_chain) st_stop ;;
    question <- st_text_input question_label "" (question_field inp) ;;
    st_markdown examples_text ;;
    process_question question qa_chain
  else
    st_warning key_warning.

(** One run of the script, lines 24-128. *)
Definition script (inp : Input) : M unit :=
  session_setdefault "openai_api_key" "" ;;
  st_title "📊 Financial Document Q&A System" ;;
  st_markdown intro_text ;;
  value <- session_get "openai_api_key" ;;
  api_key <- st_text_input key_label value (key_field inp) ;;
  main_block inp api_key ;;
  st_markdown "---" ;;
  st_markdown "Built with Streamlit, Neo4j, and OpenAI".

End App.

(** ** Runs, sessions and what the user sees *)

Section Runs.

Context `{ext : Externals}.

(** The value [st.text_input] returns for the key field in a run that starts
    in state [s]: the text the widget holds, or else the session's key. *)
Definition entered_key (inp : Input) (s : State) : string :=
  default (default "" (session_state s !! "openai_api_key")) (key_field inp).

Definition entered_question (inp : Input) : string := default "" (question_field inp).

(** The key held by the session. *)
Definition session_key (s : State) : option string :=
  session_state s !! "openai_api_key".

Definition run : Input -> M unit := script.

Definition outcome_of {A} (r : Outcome A * State * list Event) : Outcome A := fst (fst r).
Definition state_of {A} (r : Outcome A * State * list Event) : State := snd (fst r).
Definition events_of {A} (r : Outcome A * State * list Event) : list Event := snd r.

(** *** The fixed parts of a page *)

Definition header (shown_key : string) : list Event :=
  [ Render (StTitle "📊 Financial Document Q&A System");
    Render (StMarkdown intro_text);
    Render (StTextInput key_label shown_key) ].

Definition footer : list Event :=
  [ Render (StMarkdown "---");
    Render (StMarkdown "Built with Streamlit, Neo4j, and OpenAI") ].

(** The session state once line 26 has run. *)
Definition session_ready (s : State) : State :=
  match session_state s !! "openai_api_key" with
  | Some _ => s
  | None => set_session_state (<["openai_api_key" := ""]> (session_state s)) s
  end.

(** The session state once line 91 has run with [api_key]. *)
Definition signed_in (api_key : string) (s : State) : State :=
  set_session_state (<["openai_api_key" := api_key]> (session_state (session_ready s))) s.

(** The session state does not matter to the three functions: running one
    of them in another session changes the result in the session state only. *)
Definition in_session {A} (m : gmap string string) (r : Outcome A * State * list Event)
    : Outcome A * State * list Event :=
  match r with
  | (o, s, evs) => (o, set_session_state m s, evs)
  end.

(** No event of the trace enters one of the three functions or reaches an
    external service. *)
Definition no_calls (evs : list Event) : Prop := List.filter is_call evs = [].

(** The guard of the key field, for one content of the field: a run in which
    the field holds [key] makes no call and shows the warning. *)
Definition key_guard (key : string) : Prop :=
  forall (inp : Input) (s : State),
    entered_key inp s = key ->
    no_calls (events_of (run inp s)) /\
    In (StWarning key_warning) (page (events_of (run inp s))).

(** The key field holds no non-empty text of its own in this run. *)
Definition no_key_typed (inp : Input) : Prop :=
  key_field inp = None \/ key_field inp = Some "".

(** The session holds no non-empty key. *)
Definition no_key_held (s : State) : Prop :=
  session_key s = None \/ session_key s = Some "".

(** After every run the session holds what the key field holds. *)
Definition key_field_mirrored : Prop :=
  forall (inp : Input) (s : State),
    session_key (state_of (run inp s)) = Some (entered_key inp s).

(** A session: the script is run once per interaction, each run starting in
    the state the previous one left.  The result is the final state and the
    trace of every run, oldest first. *)
Fixpoint session (inps : list Input) (s : State) : State * list (list Event) :=
  match inps with
  | [] => (s, [])
  | inp :: rest =>
      let r := run inp s in
      let '(s', traces) := session rest (state_of r) in
      (s', events_of r :: traces)
  end.

(** A process that has just started: nothing cached, nothing allocated. *)
Definition fresh_process (w : W) : State :=
  MkState w 0 ∅ ∅ ∅.

(** A new browser session attached to a running process. *)
Definition new_session (s : State) : State := set_session_state ∅ s.

(** The cache keys of the two decorated functions. *)
Definition vector_store_key (api_key : string) : list (string * PyArg) :=
  cache_key [("api_key", ArgStr api_key)].

Definition qa_chain_key (_vector_store : option VectorStore) (api_key : string)
    : list (string * PyArg) :=
  cache_key [("_vector_store", arg_of_store _vector_store); ("api_key", ArgStr api_key)].

(** Calling [initialize_vector_store] with each key in turn; the result is the
    final state and how each call ended, oldest first. *)
Fixpoint vector_store_calls (keys : list string) (s : State)
    : State * list (Outcome (option VectorStore)) :=
  match keys with
  | [] => (s, [])
  | k :: rest =>
      let r := initialize_vector_store k s in
      let '(s', results) := vector_store_calls rest (state_of r) in
      (s', outcome_of r :: results)
  end.

(** The keyword arguments of the call of lines 52-56. *)
Definition chain_args_for (vs : VectorStore) (api_key : string) : ChainArgs :=
  {| llm := {| temperature := 0; llm_api_key := api_key |};
     chain_type := "stuff";
     retriever := {| retriever_of := vs |} |}.


(** The external calls of a trace. *)
Definition externs (evs : list Event) : list Event := List.filter is_extern evs.


(** The caches hold what the script's functions can have put there: a call
    that returned a handle rendered nothing. *)
Definition cache_ok (s : State) : Prop :=
  (forall key v els, vector_store_cache s !! key = Some (MkCached (Some v) els) -> els = []) /\
  (forall key c els, qa_chain_cache s !! key = Some (MkCached (Some c) els) -> els = []).

(** A call that ended by returning [None] after rendering one error, the
    text of which is [prefix] followed by the message of the exception. *)
Definition caught {A} (r : Outcome (option A) * State * list Event) (prefix msg : string)
    : Prop :=
  outcome_of r = Normal None /\
  rendered (events_of r) = [StError (prefix +:+ msg)] /\
  contains msg (prefix +:+ msg).

(** A run in which the external call [c] was the last one, the error [text]
    was rendered right after it, and nothing but [tail] came after. *)
Definition halts_at (r : Outcome unit * State * list Event) (c : ExternCall)
    (text : string) (tail : list Event) : Prop :=
  exists before, events_of r = before ++ [Extern c; Render (StError text)] ++ tail.

(** The part of a page that displays an answer. *)
Definition is_answer (e : Element) : bool :=
  match e with
  | StWrite _ => true
  | StMarkdown body => String.eqb body answer_heading
  | _ => false
  end.

Definition answer_display (p : list Element) : list Element := List.filter is_answer p.


(** *** What a trace did, by kind *)

(** The API key of a connection to the vector index. *)
Definition connect_key (ev : Event) : option string :=
  match ev with
  | Extern (CallFromExistingGraph kw) =>
      match kwarg "embedding" kw with
      | Some (PyOpenAIEmbeddings k) => Some k
      | _ => None
      end
  | _ => None
  end.

(** The API key of a chain construction. *)
Definition build_key (ev : Event) : option string :=
  match ev with
  | Extern (CallFromChainType args) => Some (llm_api_key (llm args))
  | _ => None
  end.

(** The chain and the question of a call of the chain. *)
Definition asked (ev : Event) : option (Chain * string) :=
  match ev with
  | Extern (CallChain ch question) => Some (ch, question)
  | _ => None
  end.

Definition invocation (ev : Event) : option (string * list (string * PyArg)) :=
  match ev with
  | Invoke fn args => Some (fn, args)
  | _ => None
  end.

(** The keys the trace connected to the vector index with, the keys it built
    a chain with, the questions it put to a chain and the functions of the
    script it entered, each in the order of the trace. *)
Definition connects (evs : list Event) : list string := omap connect_key evs.
Definition builds (evs : list Event) : list string := omap build_key evs.
Definition questions (evs : list Event) : list (Chain * string) := omap asked evs.
Definition invocations (evs : list Event) : list (string * list (string * PyArg)) :=
  omap invocation evs.

(** The API key a store was built with. *)
Definition store_key (vs : VectorStore) : option string :=
  match kwarg "embedding" (vs_kwargs vs) with
  | Some (PyOpenAIEmbeddings k) => Some k
  | _ => None
  end.

(** The handles in the caches belong to the key they are filed under: a
    cached store was built with that key, and a cached chain holds that key
    and a store built with it. *)
Definition keys_ok (s : State) : Prop :=
  (forall k vs els,
     vector_store_cache s !! vector_store_key k = Some (MkCached (Some vs) els) ->
     store_key vs = Some k) /\
  (forall k ch els,
     qa_chain_cache s !! qa_chain_key None k = Some (MkCached (Some ch) els) ->
     llm_api_key (llm (chain_args ch)) = k /\
     store_key (retriever_of (retriever (chain_args ch))) = Some k).

(** The external world moves on between two runs. *)
Definition world_moves (w : W) (s : State) : State := set_world w s.




(** The runs of a session, each as the key its key field returned and the
    trace it left, oldest first. *)
Fixpoint session_log (inps : list Input) (s : State) : list (string * list Event) :=
  match inps with
  | [] => []
  | inp :: rest =>
      (entered_key inp s, events_of (run inp s)) :: session_log rest (state_of (run inp s))
  end.


End Runs.

Arguments outcome_of {ext A} r /.
Arguments state_of {ext A} r /.
Arguments events_of {ext A} r /.
Arguments vector_store_key : simpl never.
Arguments qa_chain_key : simpl never.

(** ** A concrete world, for examples *)

Module Demo.

Definition environ : gmap string string :=
  <["NEO4J_URI" := "bolt://localhost:7687"]>
  (<["NEO4J_USERNAME" := "neo4j"]>
  (<["NEO4J_PASSWORD" := "secret"]>
  (<["NEO4J_DATABASE" := "finance"]> ∅))).

(** The embeddings service rejects the key [sk-bad]. *)
Definition from_existing_graph (kw : Kwargs) (w : unit) : PyResult unit * unit :=
  match kwarg "embedding" kw with
  | Some (PyOpenAIEmbeddings "sk-bad") => (Raises "Incorrect API key provided", w)
  | _ => (Returns tt, w)
  end.

(** The chat model cannot be built with the key [sk-nochat]. *)
Definition from_chain_type (args : ChainArgs) (w : unit) : PyResult unit * unit :=
  if String.eqb (llm_api_key (llm args)) "sk-nochat"
  then (Raises "model not available", w)
  else (Returns tt, w).

(** The chain times out on one question, answers another with the empty
    string, and otherwise answers with a fixed sentence. *)
Definition chain_call (chain : Chain) (question : string) (w : unit)
    : PyResult Response * unit :=
  if String.eqb question "Where is Apple headquartered?"
  then (Raises "Request timed out", w)
  else if String.eqb question "What is the meaning of life?"
  then (Returns [("answer", ""); ("sources", "")], w)
  else (Returns [("answer", "Netflix is a streaming entertainment service."); ("sources", "")], w).

Definition textwrap_fill (text : string) (width : nat) : string := text.

Definition demo : Externals :=
  Build_Externals unit environ from_existing_graph from_chain_type chain_call textwrap_fill.

Definition start : @State demo := fresh_process (tt : @W demo).

Definition types (key : string) (question : string) : Input :=
  {| key_field := Some key; question_field := Some question |}.

Definition store1 : VectorStore := {| vs_ref := 0; vs_kwargs := graph_kwargs (ext := demo) "sk-1" |}.
Definition chain1 : Chain := {| chain_ref := 1; chain_args := chain_args_for store1 "sk-1" |}.

(** The process after [initialize_vector_store] has been called with two
    keys. *)
Definition two_stores : @State demo := fst (vector_store_calls ["sk-1"; "sk-2"] start).

(** A visitor who opens the page and then submits the empty key. *)
Definition idle_visit : list Input :=
  [ {| key_field := None; question_field := None |}; types "" "Hello?" ].

(** Three questions asked with a working key. *)
Definition asks_netflix : Input := types "sk-1" "What is Netflix's primary business?".
Definition asks_apple : Input := types "sk-1" "Where is Apple headquartered?".
Definition asks_life : Input := types "sk-1" "What is the meaning of life?".

(** The process once the first question has been answered. *)
Definition answered : @State demo := state_of (run asks_netflix start).

(** A chain whose responses carry no [answer] entry. *)
Definition odd_chain_call (chain : Chain) (question : string) (w : unit)
    : PyResult Response * unit :=
  (Returns [("result", "Netflix is a streaming entertainment service."); ("sources", "")], w).

Definition demo_odd : Externals :=
  Build_Externals unit environ from_existing_graph from_chain_type odd_chain_call textwrap_fill.

(** Visits with the three keys of the concrete world. *)
Definition visits : list Input :=
  [ asks_netflix; asks_apple; types "sk-2" "Hello?"; asks_life; types "sk-bad" "Hello?" ].

Definition store_nochat : VectorStore :=
  {| vs_ref := 0; vs_kwargs := graph_kwargs (ext := demo) "sk-nochat" |}.


End Demo.

(** ** Properties *)

Section Properties.

Context `{ext : Externals}.

(** One run is the header, the block of lines 90-124 and, unless the block
    stopped the run, the footer. *)
Lemma run_unfold (inp : Input) (s : State) :
  run inp s =
  match main_block inp (entered_key inp s) (session_ready s) with
  | (Normal _, s1, evs) => (Normal tt, s1, header (entered_key inp s) ++ evs ++ footer)
  | (Raised msg, s1, evs) => (Raised msg, s1, header (entered_key inp s) ++ evs)
  | (Stopped, s1, evs) => (Stopped, s1, header (entered_key inp s) ++ evs)
  end.
Proof.
  unfold run, script, entered_key, session_ready, header, footer.
  unfold bind at 1. unfold session_setdefault at 1.
  destruct (session_state s !! "openai_api_key") as [v|] eqn:Hk; simpl.
  - unfold bind, session_get, st_text_input, bind, emit, ret; simpl. rewrite Hk. simpl.
    destruct (main_block _ _ _) as [[[u|msg|] s1] evs]; reflexivity.
  - unfold bind, session_get, st_text_input, bind, emit, ret; simpl.
    rewrite lookup_insert_eq. simpl.
    destruct (main_block _ _ _) as [[[u|msg|] s1] evs]; reflexivity.
Qed.

(** *** The session state is a frame for the three functions *)

Lemma initialize_vector_store_frame (api_key : string) (m : gmap string string) (s : State) :
  initialize_vector_store api_key (set_session_state m s) =
  in_session m (initialize_vector_store api_key s).
Proof.
  unfold initialize_vector_store, cache_resource, in_session; simpl.
  destruct (vector_store_cache s !! _) as [c|]; [reflexivity|].
  unfold initialize_vector_store_body, try_except, bind, Neo4jVector_from_existing_graph; simpl.
  destruct (from_existing_graph _ _) as [[u|msg] w]; reflexivity.
Qed.

Lemma initialize_qa_chain_frame (v : option VectorStore) (api_key : string)
    (m : gmap string string) (s : State) :
  initialize_qa_chain v api_key (set_session_state m s) =
  in_session m (initialize_qa_chain v api_key s).
Proof.
  unfold initialize_qa_chain, cache_resource, in_session; simpl.
  destruct (qa_chain_cache s !! _) as [c|]; [reflexivity|].
  unfold initialize_qa_chain_body, try_except, bind, as_retriever; simpl.
  destruct v as [vs|]; [|reflexivity].
  unfold ret, RetrievalQAWithSourcesChain_from_chain_type; simpl.
  destruct (from_chain_type _ _) as [[u|msg] w]; reflexivity.
Qed.

Lemma get_answer_frame (question : string) (c : option Chain)
    (m : gmap string string) (s : State) :
  get_answer question c (set_session_state m s) =
  in_session m (get_answer question c s).
Proof.
  unfold get_answer, in_session, bind, emit, try_except, call_chain; simpl.
  destruct c as [ch|]; [|reflexivity]. simpl.
  destruct (chain_call _ _ _) as [[response|msg] w]; [|reflexivity].
  unfold getitem. destruct (dict_get _ _); reflexivity.
Qed.

(** *** The three functions always return *)

(** Each of the three functions catches what its body raises, so a call ends
    normally whatever the world does. *)
Lemma initialize_vector_store_returns (api_key : string) (s : State) :
  exists v s1 evs, initialize_vector_store api_key s = (Normal v, s1, evs).
Proof.
  unfold initialize_vector_store, cache_resource.
  destruct (vector_store_cache s !! _) as [c|]; [eauto|].
  unfold initialize_vector_store_body, try_except, bind, Neo4jVector_from_existing_graph.
  destruct (from_existing_graph _ _) as [[u|msg] w]; simpl; eauto.
Qed.

Lemma initialize_qa_chain_returns (v : option VectorStore) (api_key : string) (s : State) :
  exists c s1 evs, initialize_qa_chain v api_key s = (Normal c, s1, evs).
Proof.
  unfold initialize_qa_chain, cache_resource.
  destruct (qa_chain_cache s !! _) as [c|]; [eauto|].
  unfold initialize_qa_chain_body, try_except, bind, as_retriever.
  destruct v as [vs|]; simpl; eauto.
  unfold RetrievalQAWithSourcesChain_from_chain_type.
  destruct (from_chain_type _ _) as [[u|msg] w]; simpl; eauto.
Qed.

Lemma get_answer_returns (question : string) (c : option Chain) (s : State) :
  exists a s1 evs, get_answer question c s = (Normal a, s1, evs).
Proof.
  unfold get_answer, bind, emit, try_except, call_chain.
  destruct c as [ch|]; simpl; eauto.
  destruct (chain_call _ _ _) as [[response|msg] w]; simpl; eauto.
  unfold getitem. destruct (dict_get _ _); simpl; eauto.
Qed.

(** *** The block of lines 117-122 and the block of lines 90-124, unfolded *)

Lemma process_question_unfold (question : string) (c : option Chain) (s : State) :
  process_question question c s =
  if truthy question then
    match get_answer question c s with
    | (Normal (Some text), s1, evs) =>
        if truthy text then
          (Normal tt, s1,
           Render (StSpinner "Searching for relevant information...") :: evs ++
           [Render (StMarkdown answer_heading); Render (StWrite (textwrap_fill text 80))])
        else
          (Normal tt, s1, Render (StSpinner "Searching for relevant information...") :: evs)
    | (Normal None, s1, evs) =>
        (Normal tt, s1, Render (StSpinner "Searching for relevant information...") :: evs)
    | (Raised msg, s1, evs) =>
        (Raised msg, s1, Render (StSpinner "Searching for relevant information...") :: evs)
    | (Stopped, s1, evs) =>
        (Stopped, s1, Render (StSpinner "Searching for relevant information...") :: evs)
    end
  else (Normal tt, s, []).
Proof.
  unfold process_question.
  destruct (truthy question); [|reflexivity].
  unfold bind at 1. unfold st_spinner, emit.
  unfold bind at 1.
  destruct (get_answer question c s) as [[[[text|]|msg|] s1] evs]; try reflexivity.
  - destruct (truthy text); simpl.
    + reflexivity.
    + rewrite app_nil_r. reflexivity.
  - simpl. rewrite app_nil_r. reflexivity.
Qed.

Lemma main_block_unfold (inp : Input) (api_key : string) (s : State) :
  main_block inp api_key s =
  if truthy api_key then
    match initialize_vector_store api_key
            (set_session_state (<["openai_api_key" := api_key]> (session_state s)) s) with
    | (Normal (Some vs), s1, evs1) =>
        match initialize_qa_chain (Some vs) api_key s1 with
        | (Normal (Some ch), s2, evs2) =>
            match process_question (entered_question inp) (Some ch) s2 with
            | (o, s3, evs3) =>
                (o, s3,
                 evs1 ++ evs2 ++
                 Render (StTextInput question_label (entered_question inp)) ::
                 Render (StMarkdown examples_text) :: evs3)
            end
        | (Normal None, s2, evs2) => (Stopped, s2, evs1 ++ evs2)
        | (Raised msg, s2, evs2) => (Raised msg, s2, evs1 ++ evs2)
        | (Stopped, s2, evs2) => (Stopped, s2, evs1 ++ evs2)
        end
    | (Normal None, s1, evs1) => (Stopped, s1, evs1)
    | (Raised msg, s1, evs1) => (Raised msg, s1, evs1)
    | (Stopped, s1, evs1) => (Stopped, s1, evs1)
    end
  else (Normal tt, s, [Render (StWarning key_warning)]).
Proof.
  unfold main_block.
  destruct (truthy api_key); [|reflexivity].
  unfold bind at 1. unfold session_set at 1.
  unfold bind at 1.
  destruct (initialize_vector_store _ _) as [[[[vs|]|msg|] s1] evs1]; try reflexivity.
  - unfold bind at 1. unfold is_None, when, ret at 1.
    unfold bind at 1.
    destruct (initialize_qa_chain _ _ _) as [[[[ch|]|msg|] s2] evs2]; try reflexivity.
    + unfold bind at 1. unfold is_None, when, ret at 1.
      unfold bind at 1. unfold st_text_input, bind, emit, ret, st_markdown, entered_question.
      simpl.
      destruct (process_question _ _ _) as [[o s3] evs3]. reflexivity.
    + unfold bind at 1. unfold is_None, when, st_stop. simpl.
      rewrite app_nil_r. reflexivity.
  - unfold bind at 1. unfold is_None, when, st_stop. simpl.
    rewrite app_nil_r. reflexivity.
Qed.
(** *** Runs with an empty key field *)

Lemma run_empty_key (inp : Input) (s : State) :
  entered_key inp s = "" ->
  run inp s =
  (Normal tt, session_ready s, header "" ++ [Render (StWarning key_warning)] ++ footer).
Proof.
  intros Hk. rewrite run_unfold, main_block_unfold, Hk. reflexivity.
Qed.

Lemma empty_key_no_calls (inp : Input) (s : State) :
  entered_key inp s = "" -> no_calls (events_of (run inp s)).
Proof.
  intros Hk. rewrite (run_empty_key inp s Hk). reflexivity.
Qed.

Lemma call_needs_key (inp : Input) (s : State) :
  ~ no_calls (events_of (run inp s)) -> truthy (entered_key inp s) = true.
Proof.
  intros Hcalls. destruct (entered_key inp s) as [|c k] eqn:Hk; [|reflexivity].
  exfalso. apply Hcalls. rewrite (run_empty_key inp s Hk). reflexivity.
Qed.

Lemma session_ready_key (s : State) :
  session_key (session_ready s) = Some (default "" (session_key s)).
Proof.
  unfold session_ready, session_key.
  destruct (session_state s !! "openai_api_key") as [v|] eqn:Hv.
  - rewrite Hv. reflexivity.
  - simpl. rewrite lookup_insert_eq. reflexivity.
Qed.

Lemma entered_key_unset (inp : Input) (s : State) :
  no_key_typed inp -> no_key_held s -> entered_key inp s = "".
Proof.
  unfold no_key_typed, no_key_held, entered_key, session_key.
  intros [Hi|Hi] [Hs|Hs]; rewrite Hi; try rewrite Hs; reflexivity.
Qed.

(** *** The session state across the block of lines 90-124 *)

Lemma process_question_frame (question : string) (c : option Chain)
    (m : gmap string string) (s : State) :
  process_question question c (set_session_state m s) =
  in_session m (process_question question c s).
Proof.
  rewrite !process_question_unfold.
  destruct (truthy question); [|reflexivity].
  rewrite get_answer_frame.
  destruct (get_answer question c s) as [[[[text|]|msg|] s1] evs]; try reflexivity.
  unfold in_session; simpl. destruct (truthy text); reflexivity.
Qed.

Lemma main_block_session (inp : Input) (api_key : string) (s : State) :
  session_state (state_of (main_block inp api_key s)) =
  if truthy api_key then <["openai_api_key" := api_key]> (session_state s)
  else session_state s.
Proof.
  rewrite main_block_unfold.
  destruct (truthy api_key); [|reflexivity].
  rewrite initialize_vector_store_frame.
  destruct (initialize_vector_store api_key s) as [[[[vs|]|msg|] s1] evs1];
    unfold in_session; simpl; try reflexivity.
  rewrite initialize_qa_chain_frame.
  destruct (initialize_qa_chain (Some vs) api_key s1) as [[[[ch|]|msg|] s2] evs2];
    unfold in_session; simpl; try reflexivity.
  rewrite process_question_frame.
  destruct (process_question _ _ s2) as [[o s3] evs3]. reflexivity.
Qed.

Lemma run_session_state (inp : Input) (s : State) :
  session_state (state_of (run inp s)) =
  if truthy (entered_key inp s)
  then <["openai_api_key" := entered_key inp s]> (session_state (session_ready s))
  else session_state (session_ready s).
Proof.
  rewrite <- main_block_session with (inp := inp).
  rewrite run_unfold.
  destruct (main_block inp _ _) as [[[u|msg|] s1] evs]; reflexivity.
Qed.

Lemma run_keeps_no_key (inp : Input) (s : State) :
  no_key_typed inp -> no_key_held s -> no_key_held (state_of (run inp s)).
Proof.
  intros Hi Hs. right. unfold session_key.
  rewrite run_session_state, (entered_key_unset inp s Hi Hs). simpl.
  fold (session_key (session_ready s)). rewrite session_ready_key.
  destruct Hs as [Hs|Hs]; rewrite Hs; reflexivity.
Qed.

(** For the empty API key, a run makes no call to [initialize_vector_store],
    [initialize_qa_chain] or [get_answer], reaches no external service, ends
    normally and shows the warning. *)
Lemma empty_key_guarded (inp : Input) (s : State) :
  entered_key inp s = "" ->
  no_calls (events_of (run inp s)) /\
  In (StWarning key_warning) (page (events_of (run inp s))) /\
  outcome_of (run inp s) = Normal tt.
Proof.
  intros Hk. rewrite (run_empty_key inp s Hk). simpl.
  split; [reflexivity|]. split; [|reflexivity].
  do 3 right. left. reflexivity.
Qed.

(** In a session that holds no key, as long as the key field returns no
    non-empty key no run of the script enters [initialize_vector_store],
    [initialize_qa_chain] or [get_answer] or reaches an external service; and
    the first run that does is one whose key field returns a non-empty key
    of its own. *)
Lemma no_call_before_key (inps : list Input) (s : State) (inp : Input) :
  no_key_held s ->
  Forall no_key_typed inps ->
  Forall no_calls (snd (session inps s)) /\
  (~ no_calls (events_of (run inp (fst (session inps s)))) ->
   truthy (entered_key inp (fst (session inps s))) = true /\
   key_field inp = Some (entered_key inp (fst (session inps s)))).
Proof.
  intros Hs Hin. revert s Hs.
  induction Hin as [|i rest Hi Hrest IH]; intros s Hs.
  - simpl. split; [constructor|]. intros Hcall.
    pose proof (call_needs_key inp s Hcall) as Hk. split; [exact Hk|].
    unfold entered_key in *. destruct (key_field inp) as [k|]; [reflexivity|].
    simpl in Hk. destruct Hs as [Hs|Hs]; unfold session_key in Hs;
      rewrite Hs in Hk; discriminate.
  - specialize (IH (state_of (run i s)) (run_keeps_no_key i s Hi Hs)).
    simpl in *.
    destruct (session rest _) as [s' traces].
    simpl in *. destruct IH as [IH1 IH2]. split; [|exact IH2].
    constructor; [|exact IH1].
    pose proof (empty_key_no_calls i s) as Haux. apply Haux.
    apply entered_key_unset; assumption.
Qed.

(** C8 (amended): after a run whose key field is not empty the session holds
    the content of the key field; after a run whose key field is empty the
    session holds the key it held before (the empty string in a session that
    held none). *)
Theorem session_key_after_run (inp : Input) (s : State) :
  session_key (state_of (run inp s)) =
  Some (if truthy (entered_key inp s) then entered_key inp s
        else default "" (session_key s)).
Proof.
  unfold session_key at 1. rewrite run_session_state.
  destruct (truthy (entered_key inp s)).
  - rewrite lookup_insert_eq. reflexivity.
  - apply session_ready_key.
Qed.

(** *** The two decorated functions, case by case *)

Lemma vector_store_key_eq (api_key : string) :
  vector_store_key api_key = [("api_key", ArgStr api_key)].
Proof. reflexivity. Qed.

(** The store is no part of the key: [_vector_store] starts with an
    underscore. *)
Lemma qa_chain_key_eq (v : option VectorStore) (api_key : string) :
  qa_chain_key v api_key = [("api_key", ArgStr api_key)].
Proof. reflexivity. Qed.

Lemma initialize_vector_store_unfold (api_key : string) (s : State) :
  initialize_vector_store api_key s =
  match vector_store_cache s !! vector_store_key api_key with
  | Some c =>
      (Normal (cached_value c), s,
       Invoke "initialize_vector_store" [("api_key", ArgStr api_key)]
       :: map Render (cached_elements c))
  | None =>
      match from_existing_graph (graph_kwargs api_key) (world s) with
      | (Returns _, w) =>
          let vs := {| vs_ref := next_ref s; vs_kwargs := graph_kwargs api_key |} in
          (Normal (Some vs),
           set_vector_store_cache
             (<[vector_store_key api_key := MkCached (Some vs) []]> (vector_store_cache s))
             (set_next_ref (S (next_ref s)) (set_world w s)),
           [ Invoke "initialize_vector_store" [("api_key", ArgStr api_key)];
             Extern (CallFromExistingGraph (graph_kwargs api_key)) ])
      | (Raises msg, w) =>
          let text := "Error initializing vector store: " +:+ msg in
          (Normal None,
           set_vector_store_cache
             (<[vector_store_key api_key := MkCached None [StError text]]>
                (vector_store_cache s))
             (set_world w s),
           [ Invoke "initialize_vector_store" [("api_key", ArgStr api_key)];
             Extern (CallFromExistingGraph (graph_kwargs api_key));
             Render (StError text) ])
      end
  end.
Proof.
  unfold initialize_vector_store, cache_resource, vector_store_key.
  destruct (vector_store_cache s !! _) as [c|]; [reflexivity|].
  unfold initialize_vector_store_body, try_except, bind, Neo4jVector_from_existing_graph.
  destruct (from_existing_graph _ _) as [[u|msg] w]; reflexivity.
Qed.

Lemma initialize_qa_chain_unfold (v : option VectorStore) (api_key : string) (s : State) :
  initialize_qa_chain v api_key s =
  let params := [("_vector_store", arg_of_store v); ("api_key", ArgStr api_key)] in
  match qa_chain_cache s !! qa_chain_key v api_key with
  | Some c =>
      (Normal (cached_value c), s,
       Invoke "initialize_qa_chain" params :: map Render (cached_elements c))
  | None =>
      match v with
      | Some vs =>
          match from_chain_type (chain_args_for vs api_key) (world s) with
          | (Returns _, w) =>
              let ch := {| chain_ref := next_ref s; chain_args := chain_args_for vs api_key |} in
              (Normal (Some ch),
               set_qa_chain_cache
                 (<[qa_chain_key v api_key := MkCached (Some ch) []]> (qa_chain_cache s))
                 (set_next_ref (S (next_ref s)) (set_world w s)),
               [ Invoke "initialize_qa_chain" params;
                 Extern (CallFromChainType (chain_args_for vs api_key)) ])
          | (Raises msg, w) =>
              let text := "Error initializing QA chain: " +:+ msg in
              (Normal None,
               set_qa_chain_cache
                 (<[qa_chain_key v api_key := MkCached None [StError text]]> (qa_chain_cache s))
                 (set_world w s),
               [ Invoke "initialize_qa_chain" params;
                 Extern (CallFromChainType (chain_args_for vs api_key));
                 Render (StError text) ])
          end
      | None =>
          let text :=
            "Error initializing QA chain: 'NoneType' object has no attribute 'as_retriever'" in
          (Normal None,
           set_qa_chain_cache
             (<[qa_chain_key v api_key := MkCached None [StError text]]> (qa_chain_cache s)) s,
           [ Invoke "initialize_qa_chain" params; Render (StError text) ])
      end
  end.
Proof.
  unfold initialize_qa_chain, cache_resource, qa_chain_key.
  destruct (qa_chain_cache s !! _) as [c|]; [reflexivity|].
  unfold initialize_qa_chain_body, try_except, bind, as_retriever.
  destruct v as [vs|]; [|reflexivity].
  unfold ret, RetrievalQAWithSourcesChain_from_chain_type, chain_args_for.
  destruct (from_chain_type _ _) as [[u|msg] w]; reflexivity.
Qed.

Lemma get_answer_unfold (question : string) (c : option Chain) (s : State) :
  get_answer question c s =
  let call := Invoke "get_answer" [("question", ArgStr question); ("qa_chain", arg_of_chain c)] in
  match c with
  | Some ch =>
      match chain_call ch question (world s) with
      | (Returns response, w) =>
          match dict_get "answer" response with
          | Some answer =>
              (Normal (Some answer), set_world w s, [call; Extern (CallChain ch question)])
          | None =>
              (Normal None, set_world w s,
               [ call; Extern (CallChain ch question);
                 Render (StError "Error getting answer: 'answer'") ])
          end
      | (Raises msg, w) =>
          (Normal None, set_world w s,
           [ call; Extern (CallChain ch question);
             Render (StError ("Error getting answer: " +:+ msg)) ])
      end
  | None =>
      (Normal None, s,
       [ call; Render (StError "Error getting answer: 'NoneType' object is not callable") ])
  end.
Proof.
  unfold get_answer, bind, emit, try_except, call_chain.
  destruct c as [ch|]; [|reflexivity]. simpl.
  destruct (chain_call _ _ _) as [[response|msg] w]; [|reflexivity].
  unfold getitem. destruct (dict_get _ _); reflexivity.
Qed.

(** *** Memoization *)

Lemma externs_replay (els : list Element) : externs (map Render els) = [].
Proof. induction els as [|e els IH]; [reflexivity|exact IH]. Qed.

Lemma rendered_replay (els : list Element) : rendered (map Render els) = els.
Proof. induction els as [|e els IH]; [reflexivity|]. simpl. rewrite IH. reflexivity. Qed.


(** A call of [initialize_qa_chain] that follows a call with the same key is
    served from the cache, whatever the two stores are. *)
Lemma initialize_qa_chain_again (v1 v2 : option VectorStore) (api_key : string) (s : State) :
  initialize_qa_chain v2 api_key (state_of (initialize_qa_chain v1 api_key s)) =
  (outcome_of (initialize_qa_chain v1 api_key s),
   state_of (initialize_qa_chain v1 api_key s),
   Invoke "initialize_qa_chain"
     [("_vector_store", arg_of_store v2); ("api_key", ArgStr api_key)]
   :: map Render (rendered (events_of (initialize_qa_chain v1 api_key s)))).
Proof.
  rewrite (initialize_qa_chain_unfold v1 api_key s).
  rewrite !qa_chain_key_eq. cbv zeta.
  destruct (qa_chain_cache s !! _) as [c|] eqn:Hc.
  - simpl. rewrite initialize_qa_chain_unfold, qa_chain_key_eq, Hc, rendered_replay.
    reflexivity.
  - destruct v1 as [vs|].
    + destruct (from_chain_type _ _) as [[u|msg] w]; simpl;
        rewrite initialize_qa_chain_unfold, qa_chain_key_eq; simpl;
        rewrite lookup_insert_eq; reflexivity.
    + simpl. rewrite initialize_qa_chain_unfold, qa_chain_key_eq; simpl.
      rewrite lookup_insert_eq; reflexivity.
Qed.







(** *** What the caches hold *)

Lemma cache_ok_session (m : gmap string string) (s : State) :
  cache_ok s -> cache_ok (set_session_state m s).
Proof. intros Hok. exact Hok. Qed.

Lemma fresh_process_cache_ok (w : W) : cache_ok (fresh_process w).
Proof.
  split; intros key v els; simpl; rewrite lookup_empty; discriminate.
Qed.

Lemma initialize_vector_store_cache_ok (api_key : string) (s : State) :
  cache_ok s ->
  cache_ok (state_of (initialize_vector_store api_key s)) /\
  (forall vs, outcome_of (initialize_vector_store api_key s) = Normal (Some vs) ->
     rendered (events_of (initialize_vector_store api_key s)) = []).
Proof.
  intros [Hvs Hqa]. rewrite initialize_vector_store_unfold.
  destruct (vector_store_cache s !! vector_store_key api_key) as [[v els]|] eqn:Hc.
  - simpl. split; [split; assumption|].
    intros vs Heq. injection Heq as ->.
    rewrite (Hvs _ _ _ Hc). reflexivity.
  - destruct (from_existing_graph _ _) as [[u|msg] w]; simpl.
    + split; [|reflexivity]. split; [|exact Hqa].
      intros key v els. simpl. rewrite lookup_insert.
      case_decide; [congruence|apply Hvs].
    + split; [|discriminate]. split; [|exact Hqa].
      intros key v els. simpl. rewrite lookup_insert.
      case_decide; [discriminate|apply Hvs].
Qed.

Lemma initialize_qa_chain_cache_ok (v : option VectorStore) (api_key : string) (s : State) :
  cache_ok s ->
  cache_ok (state_of (initialize_qa_chain v api_key s)) /\
  (forall ch, outcome_of (initialize_qa_chain v api_key s) = Normal (Some ch) ->
     rendered (events_of (initialize_qa_chain v api_key s)) = []).
Proof.
  intros [Hvs Hqa]. rewrite initialize_qa_chain_unfold. cbv zeta.
  destruct (qa_chain_cache s !! qa_chain_key v api_key) as [[c els]|] eqn:Hc.
  - simpl. split; [split; assumption|].
    intros ch Heq. injection Heq as ->.
    rewrite (Hqa _ _ _ Hc). reflexivity.
  - destruct v as [vs|].
    + destruct (from_chain_type _ _) as [[u|msg] w]; simpl.
      * split; [|reflexivity]. split; [exact Hvs|].
        intros key c els. simpl. rewrite lookup_insert.
        case_decide; [congruence|apply Hqa].
      * split; [|discriminate]. split; [exact Hvs|].
        intros key c els. simpl. rewrite lookup_insert.
        case_decide; [discriminate|apply Hqa].
    + simpl. split; [|discriminate]. split; [exact Hvs|].
      intros key c els. simpl. rewrite lookup_insert.
      case_decide; [discriminate|apply Hqa].
Qed.

Lemma get_answer_cache_ok (question : string) (c : option Chain) (s : State) :
  cache_ok s ->
  cache_ok (state_of (get_answer question c s)) /\
  (forall a, outcome_of (get_answer question c s) = Normal (Some a) ->
     rendered (events_of (get_answer question c s)) = []).
Proof.
  intros Hok. rewrite get_answer_unfold. cbv zeta.
  destruct c as [ch|]; [|split; [exact Hok|discriminate]].
  destruct (chain_call _ _ _) as [[response|msg] w]; [|split; [exact Hok|discriminate]].
  destruct (dict_get _ _); split; try exact Hok; [reflexivity|discriminate].
Qed.

Lemma process_question_cache_ok (question : string) (c : option Chain) (s : State) :
  cache_ok s -> cache_ok (state_of (process_question question c s)).
Proof.
  intros Hok. rewrite process_question_unfold.
  destruct (truthy question); [|exact Hok].
  destruct (get_answer_cache_ok question c s Hok) as [Hok1 _].
  destruct (get_answer question c s) as [[[[text|]|msg|] s1] evs]; simpl in *;
    try exact Hok1.
  destruct (truthy text); exact Hok1.
Qed.

Lemma main_block_cache_ok (inp : Input) (api_key : string) (s : State) :
  cache_ok s -> cache_ok (state_of (main_block inp api_key s)).
Proof.
  intros Hok. rewrite main_block_unfold.
  destruct (truthy api_key); [|exact Hok].
  pose proof (cache_ok_session (<["openai_api_key" := api_key]> (session_state s)) s Hok)
    as Hok0.
  destruct (initialize_vector_store_cache_ok api_key _ Hok0) as [Hok1 _].
  destruct (initialize_vector_store api_key _) as [[[[vs|]|msg|] s1] evs1]; simpl in *;
    try exact Hok1.
  destruct (initialize_qa_chain_cache_ok (Some vs) api_key s1 Hok1) as [Hok2 _].
  destruct (initialize_qa_chain (Some vs) api_key s1) as [[[[ch|]|msg|] s2] evs2];
    simpl in *; try exact Hok2.
  pose proof (process_question_cache_ok (entered_question inp) (Some ch) s2 Hok2) as Hok3.
  destruct (process_question _ _ s2) as [[o s3] evs3]. exact Hok3.
Qed.

(** Every state a process can be in satisfies [cache_ok]: it holds when the
    process starts and every run keeps it. *)
Lemma run_cache_ok (inp : Input) (s : State) :
  cache_ok s -> cache_ok (state_of (run inp s)).
Proof.
  intros Hok. rewrite run_unfold.
  assert (cache_ok (session_ready s)) as Hready.
  { unfold session_ready. destruct (session_state s !! _); exact Hok. }
  pose proof (main_block_cache_ok inp (entered_key inp s) _ Hready) as Hmain.
  destruct (main_block inp _ _) as [[[u|msg|] s1] evs]; exact Hmain.
Qed.

Lemma session_cache_ok (inps : list Input) (s : State) :
  cache_ok s -> cache_ok (fst (session inps s)).
Proof.
  revert s. induction inps as [|inp rest IH]; intros s Hok; [exact Hok|].
  simpl. specialize (IH _ (run_cache_ok inp s Hok)).
  destruct (session rest _) as [s' traces]. exact IH.
Qed.

(** *** Runs in which both handles are obtained *)

Lemma rendered_app (evs1 evs2 : list Event) :
  rendered (evs1 ++ evs2) = rendered evs1 ++ rendered evs2.
Proof.
  induction evs1 as [|[e|fn args|c] evs1 IH]; simpl; [reflexivity| |exact IH|exact IH].
  rewrite IH. reflexivity.
Qed.

Lemma session_ready_signed_in (m : gmap string string) (s : State) :
  set_session_state m (session_ready s) = set_session_state m s.
Proof.
  unfold session_ready. destruct (session_state s !! _); reflexivity.
Qed.

Lemma process_question_returns (question : string) (c : option Chain) (s : State) :
  exists s1 evs, process_question question c s = (Normal tt, s1, evs).
Proof.
  rewrite process_question_unfold.
  destruct (truthy question); [|eauto].
  destruct (get_answer_returns question c s) as (a & s1 & evs & ->).
  destruct a as [text|]; [destruct (truthy text)|]; eauto.
Qed.

(** A run whose key field is not empty and whose first call fails to return
    a vector store stops there. *)
Lemma run_without_store (inp : Input) (s s1 : State) (evs1 : list Event) :
  truthy (entered_key inp s) = true ->
  initialize_vector_store (entered_key inp s) s = (Normal None, s1, evs1) ->
  run inp s =
  (Stopped, set_session_state (session_state (signed_in (entered_key inp s) s)) s1,
   header (entered_key inp s) ++ evs1).
Proof.
  intros Hkey Hvs. rewrite run_unfold, main_block_unfold, Hkey.
  rewrite session_ready_signed_in, initialize_vector_store_frame, Hvs. reflexivity.
Qed.

Lemma run_without_chain (inp : Input) (s s1 s2 : State) (vs : VectorStore)
    (evs1 evs2 : list Event) :
  truthy (entered_key inp s) = true ->
  initialize_vector_store (entered_key inp s) s = (Normal (Some vs), s1, evs1) ->
  initialize_qa_chain (Some vs) (entered_key inp s) s1 = (Normal None, s2, evs2) ->
  run inp s =
  (Stopped, set_session_state (session_state (signed_in (entered_key inp s) s)) s2,
   header (entered_key inp s) ++ evs1 ++ evs2).
Proof.
  intros Hkey Hvs Hqa. rewrite run_unfold, main_block_unfold, Hkey.
  rewrite session_ready_signed_in, initialize_vector_store_frame, Hvs. simpl.
  rewrite initialize_qa_chain_frame, Hqa. reflexivity.
Qed.

Lemma run_with_handles (inp : Input) (s s1 s2 s3 : State) (vs : VectorStore) (ch : Chain)
    (evs1 evs2 evs3 : list Event) :
  truthy (entered_key inp s) = true ->
  initialize_vector_store (entered_key inp s) s = (Normal (Some vs), s1, evs1) ->
  initialize_qa_chain (Some vs) (entered_key inp s) s1 = (Normal (Some ch), s2, evs2) ->
  process_question (entered_question inp) (Some ch) s2 = (Normal tt, s3, evs3) ->
  run inp s =
  (Normal tt, set_session_state (session_state (signed_in (entered_key inp s) s)) s3,
   header (entered_key inp s) ++
   (evs1 ++ evs2 ++
    Render (StTextInput question_label (entered_question inp)) ::
    Render (StMarkdown examples_text) :: evs3) ++ footer).
Proof.
  intros Hkey Hvs Hqa Hpq. rewrite run_unfold, main_block_unfold, Hkey.
  rewrite session_ready_signed_in, initialize_vector_store_frame, Hvs. simpl.
  rewrite initialize_qa_chain_frame, Hqa. simpl.
  rewrite process_question_frame, Hpq. reflexivity.
Qed.

(** No run ends with an exception that nobody caught. *)
Lemma run_never_raises (inp : Input) (s : State) (msg : string) :
  outcome_of (run inp s) <> Raised msg.
Proof.
  destruct (truthy (entered_key inp s)) eqn:Hkey.
  - destruct (initialize_vector_store_returns (entered_key inp s) s)
      as ([vs|] & s1 & evs1 & Hvs).
    + destruct (initialize_qa_chain_returns (Some vs) (entered_key inp s) s1)
        as ([ch|] & s2 & evs2 & Hqa).
      * destruct (process_question_returns (entered_question inp) (Some ch) s2)
          as (s3 & evs3 & Hpq).
        rewrite (run_with_handles _ _ _ _ _ _ _ _ _ _ Hkey Hvs Hqa Hpq). discriminate.
      * rewrite (run_without_chain _ _ _ _ _ _ _ Hkey Hvs Hqa). discriminate.
    + rewrite (run_without_store _ _ _ _ Hkey Hvs). discriminate.
  - rewrite run_empty_key; [discriminate|].
    destruct (entered_key inp s); [reflexivity|discriminate].
Qed.

(** *** Exceptions *)

Lemma error_text_contains (prefix msg : string) : contains msg (prefix +:+ msg).
Proof.
  exists prefix, "". f_equal. clear prefix.
  induction msg as [|c msg IH]; [reflexivity|].
  change (String c msg = String c (msg +:+ "")). f_equal. exact IH.
Qed.

Lemma initialize_vector_store_raises (api_key msg : string) (s : State) :
  vector_store_cache s !! vector_store_key api_key = None ->
  fst (from_existing_graph (graph_kwargs api_key) (world s)) = Raises msg ->
  exists s1,
    initialize_vector_store api_key s =
    (Normal None, s1,
     [ Invoke "initialize_vector_store" [("api_key", ArgStr api_key)];
       Extern (CallFromExistingGraph (graph_kwargs api_key));
       Render (StError ("Error initializing vector store: " +:+ msg)) ]).
Proof.
  intros Hmiss Hraises. rewrite initialize_vector_store_unfold, Hmiss.
  destruct (from_existing_graph _ _) as [[u|msg'] w]; simpl in Hraises; [discriminate|].
  injection Hraises as ->. eauto.
Qed.

Lemma initialize_qa_chain_raises (vs : VectorStore) (api_key msg : string) (s : State) :
  qa_chain_cache s !! qa_chain_key (Some vs) api_key = None ->
  fst (from_chain_type (chain_args_for vs api_key) (world s)) = Raises msg ->
  exists s1,
    initialize_qa_chain (Some vs) api_key s =
    (Normal None, s1,
     [ Invoke "initialize_qa_chain"
         [("_vector_store", ArgRef (vs_ref vs)); ("api_key", ArgStr api_key)];
       Extern (CallFromChainType (chain_args_for vs api_key));
       Render (StError ("Error initializing QA chain: " +:+ msg)) ]).
Proof.
  intros Hmiss Hraises. rewrite initialize_qa_chain_unfold, Hmiss. cbv zeta.
  destruct (from_chain_type _ _) as [[u|msg'] w]; simpl in Hraises; [discriminate|].
  injection Hraises as ->. eauto.
Qed.

Lemma get_answer_raises (question msg : string) (ch : Chain) (s : State) :
  fst (chain_call ch question (world s)) = Raises msg ->
  exists s1,
    get_answer question (Some ch) s =
    (Normal None, s1,
     [ Invoke "get_answer" [("question", ArgStr question); ("qa_chain", ArgRef (chain_ref ch))];
       Extern (CallChain ch question);
       Render (StError ("Error getting answer: " +:+ msg)) ]).
Proof.
  intros Hraises. rewrite get_answer_unfold. cbv zeta.
  destruct (chain_call _ _ _) as [[response|msg'] w]; simpl in Hraises; [discriminate|].
  injection Hraises as ->. eauto.
Qed.

(** C5: whenever the call underlying one of the three operations raises, the
    operation catches the exception, renders one error whose text contains
    the message of the exception and returns [None]; the run then reaches no
    further external service and renders nothing after the error (the footer
    apart, after a failed [get_answer]), and it ends by [st.stop()] or
    normally, never by an exception.  After a failed construction of the
    retrieval handle the question field is not rendered. *)
Theorem exceptions_are_caught (inp : Input) (s : State) (msg : string) :
  truthy (entered_key inp s) = true ->
  (vector_store_cache s !! vector_store_key (entered_key inp s) = None ->
   fst (from_existing_graph (graph_kwargs (entered_key inp s)) (world s)) = Raises msg ->
   caught (initialize_vector_store (entered_key inp s) s)
     "Error initializing vector store: " msg /\
   outcome_of (run inp s) = Stopped /\
   halts_at (run inp s) (CallFromExistingGraph (graph_kwargs (entered_key inp s)))
     ("Error initializing vector store: " +:+ msg) [] /\
   (forall shown : string,
      ~ In (StTextInput question_label shown) (rendered (events_of (run inp s))))) /\
  (forall (vs : VectorStore) (s1 : State) (evs1 : list Event),
   initialize_vector_store (entered_key inp s) s = (Normal (Some vs), s1, evs1) ->
   qa_chain_cache s1 !! qa_chain_key (Some vs) (entered_key inp s) = None ->
   fst (from_chain_type (chain_args_for vs (entered_key inp s)) (world s1)) = Raises msg ->
   caught (initialize_qa_chain (Some vs) (entered_key inp s) s1)
     "Error initializing QA chain: " msg /\
   outcome_of (run inp s) = Stopped /\
   halts_at (run inp s) (CallFromChainType (chain_args_for vs (entered_key inp s)))
     ("Error initializing QA chain: " +:+ msg) []) /\
  (forall (vs : VectorStore) (s1 : State) (evs1 : list Event)
          (ch : Chain) (s2 : State) (evs2 : list Event),
   initialize_vector_store (entered_key inp s) s = (Normal (Some vs), s1, evs1) ->
   initialize_qa_chain (Some vs) (entered_key inp s) s1 = (Normal (Some ch), s2, evs2) ->
   truthy (entered_question inp) = true ->
   fst (chain_call ch (entered_question inp) (world s2)) = Raises msg ->
   caught (get_answer (entered_question inp) (Some ch) s2) "Error getting answer: " msg /\
   outcome_of (run inp s) = Normal tt /\
   halts_at (run inp s) (CallChain ch (entered_question inp))
     ("Error getting answer: " +:+ msg) footer).
Proof.
  intros Hkey. split; [|split].
  - intros Hmiss Hraises.
    destruct (initialize_vector_store_raises _ _ _ Hmiss Hraises) as [s1 Hvs].
    rewrite (run_without_store _ _ _ _ Hkey Hvs), Hvs.
    split; [|split; [reflexivity|split]].
    + split; [reflexivity|]. split; [reflexivity|apply error_text_contains].
    + exists (header (entered_key inp s) ++
              [Invoke "initialize_vector_store" [("api_key", ArgStr (entered_key inp s))]]).
      simpl. reflexivity.
    + intros shown. simpl. unfold question_label, key_label.
      intros [H|[H|[H|[H|[]]]]]; discriminate H.
  - intros vs s1 evs1 Hvs Hmiss Hraises.
    destruct (initialize_qa_chain_raises _ _ _ _ Hmiss Hraises) as [s2 Hqa].
    rewrite (run_without_chain _ _ _ _ _ _ _ Hkey Hvs Hqa), Hqa.
    split; [|split; [reflexivity|]].
    + split; [reflexivity|]. split; [reflexivity|apply error_text_contains].
    + exists (header (entered_key inp s) ++ evs1 ++
              [Invoke "initialize_qa_chain"
                 [("_vector_store", ArgRef (vs_ref vs));
                  ("api_key", ArgStr (entered_key inp s))]]).
      simpl. rewrite <- !app_assoc. reflexivity.
  - intros vs s1 evs1 ch s2 evs2 Hvs Hqa Hquestion Hraises.
    destruct (get_answer_raises _ _ _ _ Hraises) as [s3 Hanswer].
    assert (process_question (entered_question inp) (Some ch) s2 =
            (Normal tt, s3,
             Render (StSpinner "Searching for relevant information...") ::
             [ Invoke "get_answer"
                 [("question", ArgStr (entered_question inp));
                  ("qa_chain", ArgRef (chain_ref ch))];
               Extern (CallChain ch (entered_question inp));
               Render (StError ("Error getting answer: " +:+ msg)) ])) as Hpq.
    { rewrite process_question_unfold, Hquestion, Hanswer. reflexivity. }
    rewrite (run_with_handles _ _ _ _ _ _ _ _ _ _ Hkey Hvs Hqa Hpq), Hanswer.
    split; [|split; [reflexivity|]].
    + split; [reflexivity|]. split; [reflexivity|apply error_text_contains].
    + exists (header (entered_key inp s) ++ evs1 ++ evs2 ++
              [ Render (StTextInput question_label (entered_question inp));
                Render (StMarkdown examples_text);
                Render (StSpinner "Searching for relevant information...");
                Invoke "get_answer"
                  [("question", ArgStr (entered_question inp));
                   ("qa_chain", ArgRef (chain_ref ch))] ]).
      simpl. rewrite <- !app_assoc. reflexivity.
Qed.

(** *** What a run with both handles renders *)

Lemma run_rendered_with_handles (inp : Input) (s s1 s2 s3 : State) (vs : VectorStore)
    (ch : Chain) (evs1 evs2 evs3 : list Event) :
  cache_ok s ->
  truthy (entered_key inp s) = true ->
  initialize_vector_store (entered_key inp s) s = (Normal (Some vs), s1, evs1) ->
  initialize_qa_chain (Some vs) (entered_key inp s) s1 = (Normal (Some ch), s2, evs2) ->
  process_question (entered_question inp) (Some ch) s2 = (Normal tt, s3, evs3) ->
  outcome_of (run inp s) = Normal tt /\
  rendered (events_of (run inp s)) =
  [ StTitle "📊 Financial Document Q&A System";
    StMarkdown intro_text;
    StTextInput key_label (entered_key inp s);
    StTextInput question_label (entered_question inp);
    StMarkdown examples_text ] ++
  rendered evs3 ++
  [ StMarkdown "---"; StMarkdown "Built with Streamlit, Neo4j, and OpenAI" ].
Proof.
  intros Hok Hkey Hvs Hqa Hpq.
  destruct (initialize_vector_store_cache_ok (entered_key inp s) s Hok) as [Hok1 Hquiet1].
  rewrite Hvs in Hok1, Hquiet1. simpl in Hok1, Hquiet1.
  destruct (initialize_qa_chain_cache_ok (Some vs) (entered_key inp s) s1 Hok1)
    as [_ Hquiet2].
  rewrite Hqa in Hquiet2. simpl in Hquiet2.
  rewrite (run_with_handles _ _ _ _ _ _ _ _ _ _ Hkey Hvs Hqa Hpq).
  split; [reflexivity|]. simpl.
  rewrite !rendered_app, (Hquiet1 vs eq_refl), (Hquiet2 ch eq_refl). reflexivity.
Qed.


(** C9: when both handles are obtained and [get_answer] returns a non-empty
    string, the run ends normally and renders, after the two fields and the
    example questions, the heading [### Answer:] followed by
    [textwrap.fill(answer, width=80)], and no error. *)
Theorem answer_is_rendered (inp : Input) (s s1 s2 s3 : State) (vs : VectorStore)
    (ch : Chain) (evs1 evs2 evs3 : list Event) (answer : string) :
  cache_ok s ->
  truthy (entered_key inp s) = true ->
  initialize_vector_store (entered_key inp s) s = (Normal (Some vs), s1, evs1) ->
  initialize_qa_chain (Some vs) (entered_key inp s) s1 = (Normal (Some ch), s2, evs2) ->
  truthy (entered_question inp) = true ->
  get_answer (entered_question inp) (Some ch) s2 = (Normal (Some answer), s3, evs3) ->
  truthy answer = true ->
  outcome_of (run inp s) = Normal tt /\
  rendered (events_of (run inp s)) =
  [ StTitle "📊 Financial Document Q&A System";
    StMarkdown intro_text;
    StTextInput key_label (entered_key inp s);
    StTextInput question_label (entered_question inp);
    StMarkdown examples_text;
    StSpinner "Searching for relevant information...";
    StMarkdown "### Answer:";
    StWrite (textwrap_fill answer 80);
    StMarkdown "---";
    StMarkdown "Built with Streamlit, Neo4j, and OpenAI" ] /\
  List.filter is_error (rendered (events_of (run inp s))) = [].
Proof.
  intros Hok Hkey Hvs Hqa Hquestion Hanswer Htext.
  assert (rendered evs3 = []) as Hquiet.
  { destruct (get_answer_cache_ok (entered_question inp) (Some ch) s2) as [_ Hq].
    - destruct (initialize_vector_store_cache_ok (entered_key inp s) s Hok) as [Hok1 _].
      rewrite Hvs in Hok1.
      destruct (initialize_qa_chain_cache_ok (Some vs) (entered_key inp s) s1 Hok1)
        as [Hok2 _].
      rewrite Hqa in Hok2. exact Hok2.
    - rewrite Hanswer in Hq. apply (Hq answer). reflexivity. }
  assert (process_question (entered_question inp) (Some ch) s2 =
          (Normal tt, s3,
           Render (StSpinner "Searching for relevant information...") :: evs3 ++
           [Render (StMarkdown answer_heading); Render (StWrite (textwrap_fill answer 80))]))
    as Hpq.
  { rewrite process_question_unfold, Hquestion, Hanswer, Htext. reflexivity. }
  destruct (run_rendered_with_handles _ _ _ _ _ _ _ _ _ _ Hok Hkey Hvs Hqa Hpq)
    as [Hout Hrendered].
  split; [exact Hout|].
  assert (rendered (events_of (run inp s)) =
          [ StTitle "📊 Financial Document Q&A System";
            StMarkdown intro_text;
            StTextInput key_label (entered_key inp s);
            StTextInput question_label (entered_question inp);
            StMarkdown examples_text;
            StSpinner "Searching for relevant information...";
            StMarkdown "### Answer:";
            StWrite (textwrap_fill answer 80);
            StMarkdown "---";
            StMarkdown "Built with Streamlit, Neo4j, and OpenAI" ]) as Hall.
  { rewrite Hrendered. simpl. rewrite rendered_app, Hquiet. reflexivity. }
  split; [exact Hall|]. rewrite Hall. reflexivity.
Qed.

(** C10: when both handles are obtained and [get_answer] returns the empty
    string, the run ends normally and renders neither the heading
    [### Answer:] nor any answer text nor any error: after the example
    questions only the spinner and the footer follow. *)
Theorem empty_answer_renders_nothing (inp : Input) (s s1 s2 s3 : State) (vs : VectorStore)
    (ch : Chain) (evs1 evs2 evs3 : list Event) :
  cache_ok s ->
  truthy (entered_key inp s) = true ->
  initialize_vector_store (entered_key inp s) s = (Normal (Some vs), s1, evs1) ->
  initialize_qa_chain (Some vs) (entered_key inp s) s1 = (Normal (Some ch), s2, evs2) ->
  truthy (entered_question inp) = true ->
  get_answer (entered_question inp) (Some ch) s2 = (Normal (Some ""), s3, evs3) ->
  outcome_of (run inp s) = Normal tt /\
  rendered (events_of (run inp s)) =
  [ StTitle "📊 Financial Document Q&A System";
    StMarkdown intro_text;
    StTextInput key_label (entered_key inp s);
    StTextInput question_label (entered_question inp);
    StMarkdown examples_text;
    StSpinner "Searching for relevant information...";
    StMarkdown "---";
    StMarkdown "Built with Streamlit, Neo4j, and OpenAI" ] /\
  answer_display (rendered (events_of (run inp s))) = [] /\
  List.filter is_error (rendered (events_of (run inp s))) = [].
Proof.
  intros Hok Hkey Hvs Hqa Hquestion Hanswer.
  assert (rendered evs3 = []) as Hquiet.
  { destruct (get_answer_cache_ok (entered_question inp) (Some ch) s2) as [_ Hq].
    - destruct (initialize_vector_store_cache_ok (entered_key inp s) s Hok) as [Hok1 _].
      rewrite Hvs in Hok1.
      destruct (initialize_qa_chain_cache_ok (Some vs) (entered_key inp s) s1 Hok1)
        as [Hok2 _].
      rewrite Hqa in Hok2. exact Hok2.
    - rewrite Hanswer in Hq. apply (Hq ""). reflexivity. }
  assert (process_question (entered_question inp) (Some ch) s2 =
          (Normal tt, s3,
           Render (StSpinner "Searching for relevant information...") :: evs3))
    as Hpq.
  { rewrite process_question_unfold, Hquestion, Hanswer. reflexivity. }
  destruct (run_rendered_with_handles _ _ _ _ _ _ _ _ _ _ Hok Hkey Hvs Hqa Hpq)
    as [Hout Hrendered].
  split; [exact Hout|].
  assert (rendered (events_of (run inp s)) =
          [ StTitle "📊 Financial Document Q&A System";
            StMarkdown intro_text;
            StTextInput key_label (entered_key inp s);
            StTextInput question_label (entered_question inp);
            StMarkdown examples_text;
            StSpinner "Searching for relevant information...";
            StMarkdown "---";
            StMarkdown "Built with Streamlit, Neo4j, and OpenAI" ]) as Hall.
  { rewrite Hrendered. simpl. rewrite Hquiet. reflexivity. }
  split; [exact Hall|]. rewrite Hall. split; reflexivity.
Qed.


(** *** The connection parameters *)

Lemma NEO4J_DATABASE_default :
  environ !! "NEO4J_DATABASE" = None -> NEO4J_DATABASE = "neo4j".
Proof. unfold NEO4J_DATABASE, os_getenv. intros ->. reflexivity. Qed.

Lemma graph_kwargs_connection (api_key : string) :
  kwarg "url" (graph_kwargs api_key) = Some (py_opt (environ !! "NEO4J_URI")) /\
  kwarg "username" (graph_kwargs api_key) = Some (py_opt (environ !! "NEO4J_USERNAME")) /\
  kwarg "password" (graph_kwargs api_key) = Some (py_opt (environ !! "NEO4J_PASSWORD")) /\
  kwarg "database" (graph_kwargs api_key) = None.
Proof. repeat split; reflexivity. Qed.

Lemma replay_has_no_extern (c : ExternCall) (els : list Element) :
  ~ In (Extern c) (map Render els).
Proof.
  induction els as [|e els IH]; simpl; [tauto|].
  intros [H|H]; [discriminate H|exact (IH H)].
Qed.

(** The only call [initialize_vector_store] makes is the one of lines
    32-41. *)
Lemma initialize_vector_store_call (api_key : string) (s : State) (kw : Kwargs) :
  In (Extern (CallFromExistingGraph kw)) (events_of (initialize_vector_store api_key s)) ->
  kw = graph_kwargs api_key.
Proof.
  rewrite initialize_vector_store_unfold.
  destruct (vector_store_cache s !! vector_store_key api_key) as [c|].
  - simpl. intros [H|H]; [discriminate H|]. destruct (replay_has_no_extern _ _ H).
  - destruct (from_existing_graph _ _) as [[u|msg] w]; simpl;
      intros H; repeat (destruct H as [H|H]; [congruence|]); destruct H.
Qed.

(** What the script hands to [Neo4jVector.from_existing_graph]: the URI,
    the user name and the password read from the process environment, and
    no [database] argument, the constant [NEO4J_DATABASE] of line 16 being
    left unused.  Which database the connection then uses is decided inside
    the library, which may consult the environment itself. *)
Lemma connection_parameters (api_key : string) (s : State) (kw : Kwargs) :
  In (Extern (CallFromExistingGraph kw)) (events_of (initialize_vector_store api_key s)) ->
  kwarg "url" kw = Some (py_opt (environ !! "NEO4J_URI")) /\
  kwarg "username" kw = Some (py_opt (environ !! "NEO4J_USERNAME")) /\
  kwarg "password" kw = Some (py_opt (environ !! "NEO4J_PASSWORD")) /\
  kwarg "database" kw = None /\
  (environ !! "NEO4J_DATABASE" = None -> NEO4J_DATABASE = "neo4j").
Proof.
  intros Hcall. rewrite (initialize_vector_store_call _ _ _ Hcall).
  destruct (graph_kwargs_connection api_key) as (Hurl & Huser & Hpass & Hdb).
  repeat split; try assumption. apply NEO4J_DATABASE_default.
Qed.

End Properties.

(** The call of lines 32-41 is the same whatever [NEO4J_DATABASE] holds. *)
Lemma graph_kwargs_ignores_database (ext1 ext2 : Externals) (api_key : string) :
  (forall name : string,
     name <> "NEO4J_DATABASE" -> @environ ext1 !! name = @environ ext2 !! name) ->
  @graph_kwargs ext1 api_key = @graph_kwargs ext2 api_key.
Proof.
  intros Hsame. unfold graph_kwargs, NEO4J_URI, NEO4J_USERNAME, NEO4J_PASSWORD, os_getenv.
  rewrite !Hsame by discriminate. reflexivity.
Qed.


(** ** Further properties of the script *)

Section Coverage.

Context `{ext : Externals}.

(** *** The shapes of a run *)

(** What the block of lines 117-122 does, by the cases of its guards. *)
Lemma process_question_cases (question : string) (c : option Chain) (s : State) :
  (truthy question = false /\ process_question question c s = (Normal tt, s, [])) \/
  (truthy question = true /\
   exists (a : option string) (s1 : State) (evs : list Event),
     get_answer question c s = (Normal a, s1, evs) /\
     process_question question c s =
     (Normal tt, s1,
      Render (StSpinner "Searching for relevant information...") :: evs ++
      match a with
      | Some text =>
          if truthy text
          then [Render (StMarkdown answer_heading); Render (StWrite (textwrap_fill text 80))]
          else []
      | None => []
      end)).
Proof.
  rewrite process_question_unfold.
  destruct (truthy question); [right|left; split; reflexivity].
  split; [reflexivity|].
  destruct (get_answer_returns question c s) as (a & s1 & evs & Hga).
  exists a, s1, evs. split; [exact Hga|]. rewrite Hga.
  destruct a as [text|]; [destruct (truthy text)|]; try reflexivity;
    rewrite app_nil_r; reflexivity.
Qed.

(** A run takes one of four courses. *)
Lemma run_cases (inp : Input) (s : State) :
  (entered_key inp s = "" /\
   run inp s =
   (Normal tt, session_ready s, header "" ++ [Render (StWarning key_warning)] ++ footer)) \/
  (truthy (entered_key inp s) = true /\
   exists (s1 : State) (evs1 : list Event),
     initialize_vector_store (entered_key inp s) s = (Normal None, s1, evs1) /\
     run inp s =
     (Stopped, set_session_state (session_state (signed_in (entered_key inp s) s)) s1,
      header (entered_key inp s) ++ evs1)) \/
  (truthy (entered_key inp s) = true /\
   exists (vs : VectorStore) (s1 s2 : State) (evs1 evs2 : list Event),
     initialize_vector_store (entered_key inp s) s = (Normal (Some vs), s1, evs1) /\
     initialize_qa_chain (Some vs) (entered_key inp s) s1 = (Normal None, s2, evs2) /\
     run inp s =
     (Stopped, set_session_state (session_state (signed_in (entered_key inp s) s)) s2,
      header (entered_key inp s) ++ evs1 ++ evs2)) \/
  (truthy (entered_key inp s) = true /\
   exists (vs : VectorStore) (ch : Chain) (s1 s2 s3 : State) (evs1 evs2 evs3 : list Event),
     initialize_vector_store (entered_key inp s) s = (Normal (Some vs), s1, evs1) /\
     initialize_qa_chain (Some vs) (entered_key inp s) s1 = (Normal (Some ch), s2, evs2) /\
     process_question (entered_question inp) (Some ch) s2 = (Normal tt, s3, evs3) /\
     run inp s =
     (Normal tt, set_session_state (session_state (signed_in (entered_key inp s) s)) s3,
      header (entered_key inp s) ++
      (evs1 ++ evs2 ++
       Render (StTextInput question_label (entered_question inp)) ::
       Render (StMarkdown examples_text) :: evs3) ++ footer)).
Proof.
  destruct (truthy (entered_key inp s)) eqn:Hkey.
  - right.
    destruct (initialize_vector_store_returns (entered_key inp s) s)
      as ([vs|] & s1 & evs1 & Hvs).
    + right.
      destruct (initialize_qa_chain_returns (Some vs) (entered_key inp s) s1)
        as ([ch|] & s2 & evs2 & Hqa).
      * right. split; [reflexivity|].
        destruct (process_question_returns (entered_question inp) (Some ch) s2)
          as (s3 & evs3 & Hpq).
        exists vs, ch, s1, s2, s3, evs1, evs2, evs3.
        repeat split; try assumption.
        apply (run_with_handles _ _ _ _ _ _ _ _ _ _ Hkey Hvs Hqa Hpq).
      * left. split; [reflexivity|].
        exists vs, s1, s2, evs1, evs2. repeat split; try assumption.
        apply (run_without_chain _ _ _ _ _ _ _ Hkey Hvs Hqa).
    + left. split; [reflexivity|]. exists s1, evs1. split; [exact Hvs|].
      apply (run_without_store _ _ _ _ Hkey Hvs).
  - left. assert (entered_key inp s = "") as Hempty.
    { destruct (entered_key inp s); [reflexivity|discriminate]. }
    split; [exact Hempty|]. apply run_empty_key, Hempty.
Qed.

(** *** The traces of the three functions *)

Lemma omap_replay {A} (f : Event -> option A) (els : list Element) :
  (forall e, f (Render e) = None) -> omap f (map Render els) = [].
Proof.
  intros Hf. induction els as [|e els IH]; [reflexivity|].
  simpl. rewrite Hf. exact IH.
Qed.

Lemma initialize_vector_store_trace (api_key : string) (s : State) :
  invocations (events_of (initialize_vector_store api_key s)) =
    [("initialize_vector_store", [("api_key", ArgStr api_key)])] /\
  connects (events_of (initialize_vector_store api_key s)) =
    match vector_store_cache s !! vector_store_key api_key with
    | Some _ => []
    | None => [api_key]
    end /\
  builds (events_of (initialize_vector_store api_key s)) = [] /\
  questions (events_of (initialize_vector_store api_key s)) = [].
Proof.
  rewrite initialize_vector_store_unfold.
  unfold invocations, connects, builds, questions.
  destruct (vector_store_cache s !! vector_store_key api_key) as [c|].
  - simpl. rewrite !omap_replay by reflexivity. repeat split; reflexivity.
  - destruct (from_existing_graph _ _) as [[u|msg] w]; repeat split; reflexivity.
Qed.

Lemma initialize_qa_chain_trace (vs : VectorStore) (api_key : string) (s : State) :
  invocations (events_of (initialize_qa_chain (Some vs) api_key s)) =
    [("initialize_qa_chain",
      [("_vector_store", ArgRef (vs_ref vs)); ("api_key", ArgStr api_key)])] /\
  connects (events_of (initialize_qa_chain (Some vs) api_key s)) = [] /\
  builds (events_of (initialize_qa_chain (Some vs) api_key s)) =
    match qa_chain_cache s !! qa_chain_key (Some vs) api_key with
    | Some _ => []
    | None => [api_key]
    end /\
  questions (events_of (initialize_qa_chain (Some vs) api_key s)) = [].
Proof.
  rewrite initialize_qa_chain_unfold. cbv zeta.
  unfold invocations, connects, builds, questions.
  destruct (qa_chain_cache s !! qa_chain_key (Some vs) api_key) as [c|].
  - simpl. rewrite !omap_replay by reflexivity. repeat split; reflexivity.
  - destruct (from_chain_type _ _) as [[u|msg] w]; repeat split; reflexivity.
Qed.

Lemma get_answer_trace (question : string) (ch : Chain) (s : State) :
  invocations (events_of (get_answer question (Some ch) s)) =
    [("get_answer", [("question", ArgStr question); ("qa_chain", ArgRef (chain_ref ch))])] /\
  connects (events_of (get_answer question (Some ch) s)) = [] /\
  builds (events_of (get_answer question (Some ch) s)) = [] /\
  questions (events_of (get_answer question (Some ch) s)) = [(ch, question)].
Proof.
  rewrite get_answer_unfold. cbv zeta.
  unfold invocations, connects, builds, questions.
  destruct (chain_call _ _ _) as [[response|msg] w]; [destruct (dict_get _ _)|];
    repeat split; reflexivity.
Qed.

Lemma process_question_trace (question : string) (ch : Chain) (s : State) :
  connects (events_of (process_question question (Some ch) s)) = [] /\
  builds (events_of (process_question question (Some ch) s)) = [] /\
  invocations (events_of (process_question question (Some ch) s)) =
    (if truthy question
     then [("get_answer",
            [("question", ArgStr question); ("qa_chain", ArgRef (chain_ref ch))])]
     else []) /\
  questions (events_of (process_question question (Some ch) s)) =
    (if truthy question then [(ch, question)] else []).
Proof.
  destruct (process_question_cases question (Some ch) s)
    as [[Hq ->]|[Hq (a & s1 & evs & Hga & ->)]]; rewrite Hq.
  - repeat split; reflexivity.
  - destruct (get_answer_trace question ch s) as (Hinv & Hcon & Hbuild & Hask).
    rewrite Hga in Hinv, Hcon, Hbuild, Hask. simpl in Hinv, Hcon, Hbuild, Hask.
    unfold invocations, connects, builds, questions in *. simpl.
    rewrite !omap_app, Hinv, Hcon, Hbuild, Hask.
    destruct a as [text|]; [destruct (truthy text)|]; repeat split; reflexivity.
Qed.


(** *** What the three functions do to the caches *)

Lemma initialize_vector_store_caches (api_key : string) (s : State) :
  qa_chain_cache (state_of (initialize_vector_store api_key s)) = qa_chain_cache s /\
  is_Some (vector_store_cache (state_of (initialize_vector_store api_key s))
             !! vector_store_key api_key) /\
  (forall key c, vector_store_cache s !! key = Some c ->
     vector_store_cache (state_of (initialize_vector_store api_key s)) !! key = Some c) /\
  (forall key, key <> vector_store_key api_key ->
     vector_store_cache (state_of (initialize_vector_store api_key s)) !! key =
     vector_store_cache s !! key).
Proof.
  rewrite initialize_vector_store_unfold.
  destruct (vector_store_cache s !! vector_store_key api_key) as [c|] eqn:Hc.
  - simpl. rewrite Hc. repeat split; eauto.
  - assert (forall key c', vector_store_cache s !! key = Some c' ->
                            vector_store_key api_key <> key) as Hother.
    { intros key c' Hkey Heq. rewrite <- Heq, Hc in Hkey. discriminate. }
    destruct (from_existing_graph _ _) as [[u|msg] w]; simpl.
    + split; [reflexivity|]. split; [rewrite lookup_insert_eq; eauto|]. split.
      * intros key c' Hkey. rewrite lookup_insert_ne by eauto. exact Hkey.
      * intros key Hne. rewrite lookup_insert_ne by congruence. reflexivity.
    + split; [reflexivity|]. split; [rewrite lookup_insert_eq; eauto|]. split.
      * intros key c' Hkey. rewrite lookup_insert_ne by eauto. exact Hkey.
      * intros key Hne. rewrite lookup_insert_ne by congruence. reflexivity.
Qed.

Lemma initialize_qa_chain_caches (vs : VectorStore) (api_key : string) (s : State) :
  vector_store_cache (state_of (initialize_qa_chain (Some vs) api_key s)) =
    vector_store_cache s /\
  is_Some (qa_chain_cache (state_of (initialize_qa_chain (Some vs) api_key s))
             !! qa_chain_key (Some vs) api_key) /\
  (forall key c, qa_chain_cache s !! key = Some c ->
     qa_chain_cache (state_of (initialize_qa_chain (Some vs) api_key s)) !! key = Some c) /\
  (forall key, key <> qa_chain_key (Some vs) api_key ->
     qa_chain_cache (state_of (initialize_qa_chain (Some vs) api_key s)) !! key =
     qa_chain_cache s !! key).
Proof.
  rewrite initialize_qa_chain_unfold. cbv zeta.
  destruct (qa_chain_cache s !! qa_chain_key (Some vs) api_key) as [c|] eqn:Hc.
  - simpl. rewrite Hc. repeat split; eauto.
  - assert (forall key c', qa_chain_cache s !! key = Some c' ->
                            qa_chain_key (Some vs) api_key <> key) as Hother.
    { intros key c' Hkey Heq. rewrite <- Heq, Hc in Hkey. discriminate. }
    destruct (from_chain_type _ _) as [[u|msg] w]; simpl.
    + split; [reflexivity|]. split; [rewrite lookup_insert_eq; eauto|]. split.
      * intros key c' Hkey. rewrite lookup_insert_ne by eauto. exact Hkey.
      * intros key Hne. rewrite lookup_insert_ne by congruence. reflexivity.
    + split; [reflexivity|]. split; [rewrite lookup_insert_eq; eauto|]. split.
      * intros key c' Hkey. rewrite lookup_insert_ne by eauto. exact Hkey.
      * intros key Hne. rewrite lookup_insert_ne by congruence. reflexivity.
Qed.

Lemma get_answer_caches (question : string) (c : option Chain) (s : State) :
  vector_store_cache (state_of (get_answer question c s)) = vector_store_cache s /\
  qa_chain_cache (state_of (get_answer question c s)) = qa_chain_cache s /\
  next_ref (state_of (get_answer question c s)) = next_ref s.
Proof.
  rewrite get_answer_unfold. cbv zeta.
  destruct c as [ch|]; [|repeat split; reflexivity].
  destruct (chain_call _ _ _) as [[response|msg] w]; [destruct (dict_get _ _)|];
    repeat split; reflexivity.
Qed.

Lemma process_question_caches (question : string) (c : option Chain) (s : State) :
  vector_store_cache (state_of (process_question question c s)) = vector_store_cache s /\
  qa_chain_cache (state_of (process_question question c s)) = qa_chain_cache s /\
  next_ref (state_of (process_question question c s)) = next_ref s.
Proof.
  destruct (process_question_cases question c s)
    as [[Hq ->]|[Hq (a & s1 & evs & Hga & ->)]]; [repeat split; reflexivity|].
  pose proof (get_answer_caches question c s) as Hcaches.
  rewrite Hga in Hcaches. exact Hcaches.
Qed.

(** The caches of a run, in terms of the calls it made. *)
Lemma run_caches (inp : Input) (s : State) :
  (forall key c, vector_store_cache s !! key = Some c ->
     vector_store_cache (state_of (run inp s)) !! key = Some c) /\
  (forall key c, qa_chain_cache s !! key = Some c ->
     qa_chain_cache (state_of (run inp s)) !! key = Some c).
Proof.
  destruct (run_cases inp s)
    as [[Hk ->]|[[Hk (s1 & evs1 & Hvs & ->)]
       |[[Hk (vs & s1 & s2 & evs1 & evs2 & Hvs & Hqa & ->)]
        |[Hk (vs & ch & s1 & s2 & s3 & evs1 & evs2 & evs3 & Hvs & Hqa & Hpq & ->)]]]].
  - unfold session_ready. destruct (session_state s !! _); split; auto.
  - destruct (initialize_vector_store_caches (entered_key inp s) s) as (Hq & _ & Hkeep & _).
    rewrite Hvs in Hq, Hkeep. simpl in *. split; [exact Hkeep|].
    intros key c Hc. rewrite Hq. exact Hc.
  - destruct (initialize_vector_store_caches (entered_key inp s) s) as (Hq & _ & Hkeep & _).
    destruct (initialize_qa_chain_caches vs (entered_key inp s) s1) as (Hv & _ & Hkeep2 & _).
    rewrite Hvs in Hq, Hkeep. rewrite Hqa in Hv, Hkeep2. simpl in *.
    split.
    + intros key c Hc. rewrite Hv. apply Hkeep, Hc.
    + intros key c Hc. apply Hkeep2. rewrite Hq. exact Hc.
  - destruct (initialize_vector_store_caches (entered_key inp s) s) as (Hq & _ & Hkeep & _).
    destruct (initialize_qa_chain_caches vs (entered_key inp s) s1) as (Hv & _ & Hkeep2 & _).
    destruct (process_question_caches (entered_question inp) (Some ch) s2) as (Hv3 & Hq3 & _).
    rewrite Hvs in Hq, Hkeep. rewrite Hqa in Hv, Hkeep2. rewrite Hpq in Hv3, Hq3.
    simpl in *. split.
    + intros key c Hc. rewrite Hv3, Hv. apply Hkeep, Hc.
    + intros key c Hc. rewrite Hq3. apply Hkeep2. rewrite Hq. exact Hc.
Qed.


(** *** The external calls of a run *)

(** Functions of an event that look at no rendered element see, in the
    trace of a run, what they see in the traces of the calls. *)
Lemma omap_header {A} (f : Event -> option A) (shown : string) (evs : list Event) :
  (forall e, f (Render e) = None) -> omap f (header shown ++ evs) = omap f evs.
Proof. intros Hf. unfold header. simpl. rewrite !Hf. reflexivity. Qed.

Lemma omap_run {A} (f : Event -> option A) (shown : string) (e1 e2 : Element)
    (evs1 evs2 evs3 : list Event) :
  (forall e, f (Render e) = None) ->
  omap f (header shown ++ (evs1 ++ evs2 ++ Render e1 :: Render e2 :: evs3) ++ footer) =
  omap f evs1 ++ omap f evs2 ++ omap f evs3.
Proof.
  intros Hf. rewrite omap_header by exact Hf.
  rewrite !omap_app. unfold footer. simpl. rewrite !Hf.
  rewrite app_nil_r. reflexivity.
Qed.

(** A run connects to the vector index only for a key that is not in the
    cache, and then the key is in the cache. *)
Lemma run_connects (inp : Input) (s : State) :
  connects (events_of (run inp s)) = [] \/
  (connects (events_of (run inp s)) = [entered_key inp s] /\
   vector_store_cache s !! vector_store_key (entered_key inp s) = None /\
   is_Some (vector_store_cache (state_of (run inp s))
              !! vector_store_key (entered_key inp s))).
Proof.
  destruct (initialize_vector_store_trace (entered_key inp s) s) as (_ & Hcon & _ & _).
  destruct (initialize_vector_store_caches (entered_key inp s) s) as (_ & Hin & _ & _).
  destruct (run_cases inp s)
    as [[Hk ->]|[[Hk (s1 & evs1 & Hvs & ->)]
       |[[Hk (vs & s1 & s2 & evs1 & evs2 & Hvs & Hqa & ->)]
        |[Hk (vs & ch & s1 & s2 & s3 & evs1 & evs2 & evs3 & Hvs & Hqa & Hpq & ->)]]]];
    [left; reflexivity| | |]; rewrite Hvs in Hcon, Hin; simpl in Hcon, Hin;
    unfold events_of, state_of; cbn [fst snd]; unfold connects in *.
  - rewrite omap_header, Hcon by reflexivity.
    destruct (vector_store_cache s !! _); [left; reflexivity|right].
    repeat split. exact Hin.
  - destruct (initialize_qa_chain_trace vs (entered_key inp s) s1) as (_ & Hcon2 & _).
    destruct (initialize_qa_chain_caches vs (entered_key inp s) s1) as (Hv & _).
    rewrite Hqa in Hcon2, Hv. simpl in Hcon2, Hv. unfold connects in Hcon2.
    rewrite omap_header, omap_app, Hcon, Hcon2, app_nil_r by reflexivity.
    destruct (vector_store_cache s !! _); [left; reflexivity|right].
    repeat split. simpl. rewrite Hv. exact Hin.
  - destruct (initialize_qa_chain_trace vs (entered_key inp s) s1) as (_ & Hcon2 & _).
    destruct (initialize_qa_chain_caches vs (entered_key inp s) s1) as (Hv & _).
    destruct (process_question_trace (entered_question inp) ch s2) as (Hcon3 & _).
    destruct (process_question_caches (entered_question inp) (Some ch) s2) as (Hv3 & _).
    rewrite Hqa in Hcon2, Hv. rewrite Hpq in Hcon3, Hv3. simpl in Hcon2, Hv, Hcon3, Hv3.
    unfold connects in Hcon2, Hcon3.
    rewrite omap_run, Hcon, Hcon2, Hcon3, !app_nil_r by reflexivity.
    destruct (vector_store_cache s !! _); [left; reflexivity|right].
    repeat split. simpl. rewrite Hv3, Hv. exact Hin.
Qed.

(** A run builds a chain only for a key that is not in the cache, and then
    the key is in the cache. *)
Lemma run_builds (inp : Input) (s : State) :
  builds (events_of (run inp s)) = [] \/
  (builds (events_of (run inp s)) = [entered_key inp s] /\
   qa_chain_cache s !! qa_chain_key None (entered_key inp s) = None /\
   is_Some (qa_chain_cache (state_of (run inp s))
              !! qa_chain_key None (entered_key inp s))).
Proof.
  destruct (initialize_vector_store_trace (entered_key inp s) s) as (_ & _ & Hb & _).
  destruct (initialize_vector_store_caches (entered_key inp s) s) as (Hq & _).
  destruct (run_cases inp s)
    as [[Hk ->]|[[Hk (s1 & evs1 & Hvs & ->)]
       |[[Hk (vs & s1 & s2 & evs1 & evs2 & Hvs & Hqa & ->)]
        |[Hk (vs & ch & s1 & s2 & s3 & evs1 & evs2 & evs3 & Hvs & Hqa & Hpq & ->)]]]];
    [left; reflexivity| | |]; rewrite Hvs in Hb, Hq; simpl in Hb, Hq;
    unfold events_of, state_of; cbn [fst snd]; unfold builds in *.
  - left. rewrite omap_header by reflexivity. exact Hb.
  - destruct (initialize_qa_chain_trace vs (entered_key inp s) s1) as (_ & _ & Hb2 & _).
    destruct (initialize_qa_chain_caches vs (entered_key inp s) s1) as (_ & Hin & _).
    rewrite Hqa in Hb2, Hin. simpl in Hb2, Hin. unfold builds in Hb2.
    rewrite qa_chain_key_eq in Hb2, Hin. rewrite Hq in Hb2.
    rewrite qa_chain_key_eq.
    rewrite omap_header, omap_app, Hb, Hb2 by reflexivity. simpl.
    destruct (qa_chain_cache s !! _); [left; reflexivity|right].
    repeat split. exact Hin.
  - destruct (initialize_qa_chain_trace vs (entered_key inp s) s1) as (_ & _ & Hb2 & _).
    destruct (initialize_qa_chain_caches vs (entered_key inp s) s1) as (_ & Hin & _).
    destruct (process_question_trace (entered_question inp) ch s2) as (_ & Hb3 & _).
    destruct (process_question_caches (entered_question inp) (Some ch) s2) as (_ & Hq3 & _).
    rewrite Hqa in Hb2, Hin. rewrite Hpq in Hb3, Hq3. simpl in Hb2, Hin, Hb3, Hq3.
    unfold builds in Hb2, Hb3.
    rewrite qa_chain_key_eq in Hb2, Hin. rewrite Hq in Hb2.
    rewrite qa_chain_key_eq.
    rewrite omap_run, Hb, Hb2, Hb3, app_nil_r by reflexivity. simpl.
    destruct (qa_chain_cache s !! _); [left; reflexivity|right].
    repeat split. simpl. rewrite Hq3. exact Hin.
Qed.

Lemma session_caches (inps : list Input) (s : State) :
  (forall key c, vector_store_cache s !! key = Some c ->
     vector_store_cache (fst (session inps s)) !! key = Some c) /\
  (forall key c, qa_chain_cache s !! key = Some c ->
     qa_chain_cache (fst (session inps s)) !! key = Some c).
Proof.
  revert s. induction inps as [|inp rest IH]; intros s; [split; auto|].
  simpl. destruct (run_caches inp s) as [Hv Hq].
  specialize (IH (state_of (run inp s))). simpl in IH.
  destruct (session rest _) as [s' traces]. simpl in *.
  destruct IH as [IHv IHq]. split; intros key c Hc; auto.
Qed.

Lemma session_connects_new (inps : list Input) (s : State) (k : string) :
  k ∈ connects (concat (snd (session inps s))) ->
  vector_store_cache s !! vector_store_key k = None.
Proof.
  revert s. induction inps as [|inp rest IH]; intros s.
  - simpl. intros Hin. inversion Hin.
  - simpl. specialize (IH (state_of (run inp s))). simpl in IH.
    destruct (run_caches inp s) as [Hkeep _].
    destruct (session rest _) as [s' traces]. simpl in *.
    unfold connects in *. rewrite omap_app, elem_of_app. intros [Hhere|Hlater].
    + destruct (run_connects inp s) as [Hnone|(Hone & Hmiss & _)];
        unfold connects, events_of, state_of in *.
      * rewrite Hnone in Hhere. inversion Hhere.
      * rewrite Hone in Hhere. apply list_elem_of_singleton in Hhere. subst k. exact Hmiss.
    + specialize (IH Hlater).
      destruct (vector_store_cache s !! vector_store_key k) as [c|] eqn:Hc; [|reflexivity].
      rewrite (Hkeep _ _ Hc) in IH. discriminate.
Qed.

Lemma session_builds_new (inps : list Input) (s : State) (k : string) :
  k ∈ builds (concat (snd (session inps s))) ->
  qa_chain_cache s !! qa_chain_key None k = None.
Proof.
  revert s. induction inps as [|inp rest IH]; intros s.
  - simpl. intros Hin. inversion Hin.
  - simpl. specialize (IH (state_of (run inp s))). simpl in IH.
    destruct (run_caches inp s) as [_ Hkeep].
    destruct (session rest _) as [s' traces]. simpl in *.
    unfold builds in *. rewrite omap_app, elem_of_app. intros [Hhere|Hlater].
    + destruct (run_builds inp s) as [Hnone|(Hone & Hmiss & _)];
        unfold builds, events_of, state_of in *.
      * rewrite Hnone in Hhere. inversion Hhere.
      * rewrite Hone in Hhere. apply list_elem_of_singleton in Hhere. subst k. exact Hmiss.
    + specialize (IH Hlater).
      destruct (qa_chain_cache s !! qa_chain_key None k) as [c|] eqn:Hc; [|reflexivity].
      rewrite (Hkeep _ _ Hc) in IH. discriminate.
Qed.


Lemma session_cons (inp : Input) (rest : list Input) (s : State) :
  fst (session (inp :: rest) s) = fst (session rest (state_of (run inp s))) /\
  snd (session (inp :: rest) s) =
  events_of (run inp s) :: snd (session rest (state_of (run inp s))).
Proof.
  simpl. destruct (session rest _) as [s' traces]. split; reflexivity.
Qed.

(** *** The caches over a session *)

(** X1: what [st.cache_resource] holds is never dropped or replaced: an
    entry of either cache is still there, unchanged, after any number of
    runs of the script. *)
Theorem cached_entries_persist (inps : list Input) (s : State) (key : list (string * PyArg)) :
  (forall c, vector_store_cache s !! key = Some c ->
     vector_store_cache (fst (session inps s)) !! key = Some c) /\
  (forall c, qa_chain_cache s !! key = Some c ->
     qa_chain_cache (fst (session inps s)) !! key = Some c).
Proof.
  destruct (session_caches inps s) as [Hv Hq]. split; intros c Hc; auto.
Qed.

(** X2: over any number of runs the script connects to the vector index at
    most once per API key, and never for a key that was in the cache when
    the runs began. *)
Theorem one_connection_per_key (inps : list Input) (s : State) :
  NoDup (connects (concat (snd (session inps s)))) /\
  (forall k, k ∈ connects (concat (snd (session inps s))) ->
     vector_store_cache s !! vector_store_key k = None).
Proof.
  split; [|intros k; apply session_connects_new].
  revert s. induction inps as [|inp rest IH]; intros s; [constructor|].
  destruct (session_cons inp rest s) as [_ ->]. cbn [concat].
  unfold connects. rewrite omap_app. apply NoDup_app.
  split; [|split; [|apply IH]].
  - destruct (run_connects inp s) as [Hnone|(Hone & _)]; unfold connects in *.
    + rewrite Hnone. constructor.
    + rewrite Hone. apply NoDup_singleton.
  - intros k Hhere Hlater.
    destruct (run_connects inp s) as [Hnone|(Hone & _ & [c Hc])]; unfold connects in *.
    + rewrite Hnone in Hhere. inversion Hhere.
    + rewrite Hone in Hhere. apply list_elem_of_singleton in Hhere. subst k.
      rewrite (session_connects_new rest _ _ Hlater) in Hc. discriminate.
Qed.

(** X3: over any number of runs the script builds the question-answering
    chain at most once per API key, and never for a key that was in the
    cache when the runs began. *)
Theorem one_chain_per_key (inps : list Input) (s : State) :
  NoDup (builds (concat (snd (session inps s)))) /\
  (forall k, k ∈ builds (concat (snd (session inps s))) ->
     qa_chain_cache s !! qa_chain_key None k = None).
Proof.
  split; [|intros k; apply session_builds_new].
  revert s. induction inps as [|inp rest IH]; intros s; [constructor|].
  destruct (session_cons inp rest s) as [_ ->]. cbn [concat].
  unfold builds. rewrite omap_app. apply NoDup_app.
  split; [|split; [|apply IH]].
  - destruct (run_builds inp s) as [Hnone|(Hone & _)]; unfold builds in *.
    + rewrite Hnone. constructor.
    + rewrite Hone. apply NoDup_singleton.
  - intros k Hhere Hlater.
    destruct (run_builds inp s) as [Hnone|(Hone & _ & [c Hc])]; unfold builds in *.
    + rewrite Hnone in Hhere. inversion Hhere.
    + rewrite Hone in Hhere. apply list_elem_of_singleton in Hhere. subst k.
      rewrite (session_builds_new rest _ _ Hlater) in Hc. discriminate.
Qed.


(** *** The calls of a run, in order *)

Lemma run_questions (inp : Input) (s : State) :
  questions (events_of (run inp s)) = [] \/
  (truthy (entered_key inp s) = true /\
   truthy (entered_question inp) = true /\
   exists (vs : VectorStore) (ch : Chain) (s1 s2 : State) (evs1 evs2 : list Event),
     initialize_vector_store (entered_key inp s) s = (Normal (Some vs), s1, evs1) /\
     initialize_qa_chain (Some vs) (entered_key inp s) s1 = (Normal (Some ch), s2, evs2) /\
     questions (events_of (run inp s)) = [(ch, entered_question inp)]).
Proof.
  destruct (initialize_vector_store_trace (entered_key inp s) s) as (_ & _ & _ & Hask).
  destruct (run_cases inp s)
    as [[Hk ->]|[[Hk (s1 & evs1 & Hvs & ->)]
       |[[Hk (vs & s1 & s2 & evs1 & evs2 & Hvs & Hqa & ->)]
        |[Hk (vs & ch & s1 & s2 & s3 & evs1 & evs2 & evs3 & Hvs & Hqa & Hpq & ->)]]]];
    [left; reflexivity| | |]; rewrite Hvs in Hask; simpl in Hask;
    unfold events_of; cbn [fst snd]; unfold questions in *.
  - left. rewrite omap_header by reflexivity. exact Hask.
  - destruct (initialize_qa_chain_trace vs (entered_key inp s) s1) as (_ & _ & _ & Hask2).
    rewrite Hqa in Hask2. simpl in Hask2. unfold questions in Hask2.
    left. rewrite omap_header, omap_app, Hask, Hask2 by reflexivity. reflexivity.
  - destruct (initialize_qa_chain_trace vs (entered_key inp s) s1) as (_ & _ & _ & Hask2).
    destruct (process_question_trace (entered_question inp) ch s2) as (_ & _ & _ & Hask3).
    rewrite Hqa in Hask2. rewrite Hpq in Hask3. simpl in Hask2, Hask3.
    unfold questions in Hask2, Hask3.
    rewrite omap_run, Hask, Hask2, Hask3 by reflexivity. simpl.
    destruct (truthy (entered_question inp)); [right|left; reflexivity].
    split; [exact Hk|]. split; [reflexivity|].
    exists vs, ch, s1, s2, evs1, evs2. repeat split; assumption.
Qed.



(** X5: a run puts at most one question to a chain, and it is the text of
    the question field as it stands, whitespace included; with an empty
    question field the chain is not called at all. *)
Theorem question_asked_once_verbatim (inp : Input) (s : State) :
  (questions (events_of (run inp s)) = [] \/
   exists ch : Chain,
     questions (events_of (run inp s)) = [(ch, entered_question inp)] /\
     truthy (entered_key inp s) = true) /\
  (truthy (entered_question inp) = false -> questions (events_of (run inp s)) = []).
Proof.
  destruct (run_questions inp s)
    as [Hnone|(Hk & Hq & vs & ch & s1 & s2 & evs1 & evs2 & _ & _ & Hone)].
  - split; [left; exact Hnone|]. intros _. exact Hnone.
  - split; [right; exists ch; split; assumption|].
    intros Hempty. rewrite Hq in Hempty. discriminate.
Qed.

(** X6: no run ends with an exception that nobody caught.  A run either
    ends normally, the footer being the last thing it renders, or is ended
    by [st.stop()] with a non-empty key and before any question has been put
    to a chain. *)
Theorem run_ends_normally_or_stops (inp : Input) (s : State) :
  (outcome_of (run inp s) = Normal tt /\
   exists before, events_of (run inp s) = before ++ footer) \/
  (outcome_of (run inp s) = Stopped /\
   truthy (entered_key inp s) = true /\
   questions (events_of (run inp s)) = []).
Proof.
  pose proof (run_questions inp s) as Hask.
  destruct (run_cases inp s)
    as [[Hk Hrun]|[[Hk (s1 & evs1 & Hvs & Hrun)]
       |[[Hk (vs & s1 & s2 & evs1 & evs2 & Hvs & Hqa & Hrun)]
        |[Hk (vs & ch & s1 & s2 & s3 & evs1 & evs2 & evs3 & Hvs & Hqa & Hpq & Hrun)]]]].
  - left. rewrite Hrun. split; [reflexivity|].
    exists (header "" ++ [Render (StWarning key_warning)]). simpl. reflexivity.
  - right. destruct Hask as [Hnone|(_ & _ & vs & ch & s1' & s2 & e1 & e2 & Hvs' & _)].
    + rewrite Hrun in *. repeat split; assumption.
    + rewrite Hvs in Hvs'. discriminate.
  - right. destruct Hask as [Hnone|(_ & _ & vs' & ch & s1' & s2' & e1 & e2 & Hvs' & Hqa' & _)].
    + rewrite Hrun in *. repeat split; assumption.
    + rewrite Hvs in Hvs'. injection Hvs' as <- <- <-.
      rewrite Hqa in Hqa'. discriminate.
  - left. rewrite Hrun. split; [reflexivity|].
    exists (header (entered_key inp s) ++ evs1 ++ evs2 ++
            Render (StTextInput question_label (entered_question inp)) ::
            Render (StMarkdown examples_text) :: evs3).
    simpl. rewrite <- !app_assoc. reflexivity.
Qed.


(** *** Handles belong to the key they are cached under *)

Lemma vector_store_key_inj (k k' : string) :
  vector_store_key k = vector_store_key k' -> k = k'.
Proof. rewrite !vector_store_key_eq. congruence. Qed.

Lemma keys_ok_fresh (w : W) : keys_ok (fresh_process w).
Proof.
  split; intros k v els; simpl; rewrite lookup_empty; discriminate.
Qed.

Lemma keys_ok_caches (s s' : State) :
  vector_store_cache s' = vector_store_cache s ->
  qa_chain_cache s' = qa_chain_cache s ->
  keys_ok s -> keys_ok s'.
Proof.
  intros Hv Hq [Hvs Hqa]. split; intros k v els.
  - rewrite Hv. apply Hvs.
  - rewrite Hq. apply Hqa.
Qed.

Lemma store_key_graph_kwargs (api_key : string) (ref : nat) :
  store_key {| vs_ref := ref; vs_kwargs := graph_kwargs api_key |} = Some api_key.
Proof. reflexivity. Qed.

Lemma initialize_vector_store_keys_ok (api_key : string) (s : State) :
  keys_ok s ->
  keys_ok (state_of (initialize_vector_store api_key s)) /\
  (forall vs, outcome_of (initialize_vector_store api_key s) = Normal (Some vs) ->
     store_key vs = Some api_key).
Proof.
  intros [Hvs Hqa]. rewrite initialize_vector_store_unfold.
  destruct (vector_store_cache s !! vector_store_key api_key) as [[v els]|] eqn:Hc.
  - simpl. split; [split; assumption|].
    intros vs Heq. injection Heq as ->. apply (Hvs _ _ _ Hc).
  - destruct (from_existing_graph _ _) as [[u|msg] w]; simpl.
    + split; [split; [|exact Hqa]|].
      * intros k v els. simpl. rewrite lookup_insert. case_decide as Hkey.
        -- intros Heq. injection Heq as <- _.
           apply vector_store_key_inj in Hkey. subst k. apply store_key_graph_kwargs.
        -- apply Hvs.
      * intros vs Heq. injection Heq as <-. apply store_key_graph_kwargs.
    + split; [split; [|exact Hqa]|discriminate].
      intros k v els. simpl. rewrite lookup_insert.
      case_decide; [discriminate|apply Hvs].
Qed.

Lemma initialize_qa_chain_keys_ok (vs : VectorStore) (api_key : string) (s : State) :
  keys_ok s ->
  store_key vs = Some api_key ->
  keys_ok (state_of (initialize_qa_chain (Some vs) api_key s)) /\
  (forall ch, outcome_of (initialize_qa_chain (Some vs) api_key s) = Normal (Some ch) ->
     llm_api_key (llm (chain_args ch)) = api_key /\
     store_key (retriever_of (retriever (chain_args ch))) = Some api_key).
Proof.
  intros [Hvs Hqa] Hstore. rewrite initialize_qa_chain_unfold. cbv zeta.
  rewrite qa_chain_key_eq.
  destruct (qa_chain_cache s !! _) as [[c els]|] eqn:Hc.
  - simpl. split; [split; assumption|].
    intros ch Heq. injection Heq as ->.
    apply (Hqa api_key ch els). rewrite qa_chain_key_eq. exact Hc.
  - destruct (from_chain_type _ _) as [[u|msg] w]; simpl.
    + split; [split; [exact Hvs|]|].
      * intros k c els. simpl. rewrite qa_chain_key_eq, lookup_insert.
        case_decide as Hkey.
        -- intros Heq. injection Heq as <- _. simpl.
           assert (api_key = k) as <- by congruence. split; [reflexivity|exact Hstore].
        -- intros Hl. apply (Hqa k c els). rewrite qa_chain_key_eq. exact Hl.
      * intros ch Heq. injection Heq as <-. simpl. split; [reflexivity|exact Hstore].
    + split; [split; [exact Hvs|]|discriminate].
      intros k c els. simpl. rewrite qa_chain_key_eq, lookup_insert.
      case_decide; [discriminate|].
      intros Hl. apply (Hqa k c els). rewrite qa_chain_key_eq. exact Hl.
Qed.

Lemma run_keys_ok (inp : Input) (s : State) :
  keys_ok s -> keys_ok (state_of (run inp s)).
Proof.
  intros Hok.
  destruct (initialize_vector_store_keys_ok (entered_key inp s) s Hok) as [Hok1 Hown].
  destruct (run_cases inp s)
    as [[Hk ->]|[[Hk (s1 & evs1 & Hvs & ->)]
       |[[Hk (vs & s1 & s2 & evs1 & evs2 & Hvs & Hqa & ->)]
        |[Hk (vs & ch & s1 & s2 & s3 & evs1 & evs2 & evs3 & Hvs & Hqa & Hpq & ->)]]]].
  - unfold session_ready. destruct (session_state s !! _); exact Hok.
  - rewrite Hvs in Hok1. exact Hok1.
  - rewrite Hvs in Hok1, Hown. simpl in Hok1, Hown.
    destruct (initialize_qa_chain_keys_ok vs (entered_key inp s) s1 Hok1 (Hown vs eq_refl))
      as [Hok2 _].
    rewrite Hqa in Hok2. exact Hok2.
  - rewrite Hvs in Hok1, Hown. simpl in Hok1, Hown.
    destruct (initialize_qa_chain_keys_ok vs (entered_key inp s) s1 Hok1 (Hown vs eq_refl))
      as [Hok2 _].
    rewrite Hqa in Hok2. simpl in Hok2.
    destruct (process_question_caches (entered_question inp) (Some ch) s2) as (Hv & Hq & _).
    rewrite Hpq in Hv, Hq. simpl in Hv, Hq.
    apply (keys_ok_caches s2); assumption.
Qed.

Lemma session_keys_ok (inps : list Input) (s : State) :
  keys_ok s -> keys_ok (fst (session inps s)).
Proof.
  revert s. induction inps as [|inp rest IH]; intros s Hok; [exact Hok|].
  destruct (session_cons inp rest s) as [-> _]. apply IH, run_keys_ok, Hok.
Qed.

(** X7: in a process whose caches were filled by the script, a question is
    only ever put to a chain that holds the API key of this run's key field
    and that retrieves from a store built with that same key; the state the
    run leaves is again such a state. *)
Theorem question_goes_to_own_chain (inp : Input) (s : State) (ch : Chain) (question : string) :
  keys_ok s ->
  (ch, question) ∈ questions (events_of (run inp s)) ->
  question = entered_question inp /\
  llm_api_key (llm (chain_args ch)) = entered_key inp s /\
  store_key (retriever_of (retriever (chain_args ch))) = Some (entered_key inp s) /\
  keys_ok (state_of (run inp s)).
Proof.
  intros Hok Hin.
  pose proof (run_keys_ok inp s Hok) as Hafter.
  destruct (run_questions inp s)
    as [Hnone|(Hk & Hq & vs & ch' & s1 & s2 & evs1 & evs2 & Hvs & Hqa & Hone)].
  - rewrite Hnone in Hin. inversion Hin.
  - rewrite Hone in Hin. apply list_elem_of_singleton in Hin. injection Hin as -> ->.
    destruct (initialize_vector_store_keys_ok (entered_key inp s) s Hok) as [Hok1 Hown].
    rewrite Hvs in Hok1, Hown. simpl in Hok1, Hown.
    destruct (initialize_qa_chain_keys_ok vs (entered_key inp s) s1 Hok1 (Hown vs eq_refl))
      as [_ Hchain].
    rewrite Hqa in Hchain. simpl in Hchain.
    destruct (Hchain ch' eq_refl) as [Hllm Hstore].
    split; [reflexivity|]. split; [exact Hllm|]. split; [exact Hstore|exact Hafter].
Qed.


(** *** Failures are cached too *)

Lemma initialize_vector_store_result_cached (api_key : string) (s : State) :
  exists els,
    vector_store_cache (state_of (initialize_vector_store api_key s))
      !! vector_store_key api_key =
    Some (MkCached
            match outcome_of (initialize_vector_store api_key s) with
            | Normal v => v
            | _ => None
            end els) /\
    (vector_store_cache s !! vector_store_key api_key = None ->
     forall msg, fst (from_existing_graph (graph_kwargs api_key) (world s)) = Raises msg ->
     els = [StError ("Error initializing vector store: " +:+ msg)]).
Proof.
  rewrite initialize_vector_store_unfold.
  destruct (vector_store_cache s !! vector_store_key api_key) as [[v els]|] eqn:Hc.
  - exists els. simpl. split; [exact Hc|discriminate].
  - destruct (from_existing_graph _ _) as [[u|msg] w]; simpl.
    + exists []. rewrite lookup_insert_eq. split; [reflexivity|]. discriminate.
    + eexists. rewrite lookup_insert_eq. split; [reflexivity|].
      intros _ msg' Heq. injection Heq as ->. reflexivity.
Qed.

Lemma initialize_qa_chain_result_cached (vs : VectorStore) (api_key : string) (s : State) :
  exists els,
    qa_chain_cache (state_of (initialize_qa_chain (Some vs) api_key s))
      !! qa_chain_key None api_key =
    Some (MkCached
            match outcome_of (initialize_qa_chain (Some vs) api_key s) with
            | Normal c => c
            | _ => None
            end els) /\
    (qa_chain_cache s !! qa_chain_key None api_key = None ->
     forall msg, fst (from_chain_type (chain_args_for vs api_key) (world s)) = Raises msg ->
     els = [StError ("Error initializing QA chain: " +:+ msg)]).
Proof.
  rewrite initialize_qa_chain_unfold. cbv zeta. rewrite !qa_chain_key_eq.
  destruct (qa_chain_cache s !! _) as [[c els]|] eqn:Hc.
  - exists els. simpl. split; [exact Hc|discriminate].
  - destruct (from_chain_type _ _) as [[u|msg] w]; simpl.
    + exists []. rewrite lookup_insert_eq. split; [reflexivity|]. discriminate.
    + eexists. rewrite lookup_insert_eq. split; [reflexivity|].
      intros _ msg' Heq. injection Heq as ->. reflexivity.
Qed.

(** X8: a failure to connect to the vector index is remembered.  Once a run
    has failed to build the store for a key, every later run with that key
    (in any session, whatever the world has become in the meantime) makes no
    external call at all, shows the error of the first failure again and
    stops. *)
Theorem failed_store_stays_failed (inp0 inp : Input) (inps : list Input) (s : State)
    (msg : string) (w' : W) :
  truthy (entered_key inp0 s) = true ->
  vector_store_cache s !! vector_store_key (entered_key inp0 s) = None ->
  fst (from_existing_graph (graph_kwargs (entered_key inp0 s)) (world s)) = Raises msg ->
  entered_key inp (world_moves w' (fst (session inps (state_of (run inp0 s))))) =
    entered_key inp0 s ->
  outcome_of (run inp (world_moves w' (fst (session inps (state_of (run inp0 s)))))) =
    Stopped /\
  externs (events_of (run inp (world_moves w' (fst (session inps (state_of (run inp0 s)))))))
    = [] /\
  rendered (events_of (run inp (world_moves w' (fst (session inps (state_of (run inp0 s)))))))
    = rendered (header (entered_key inp0 s)) ++
      [StError ("Error initializing vector store: " +:+ msg)].
Proof.
  intros Hkey Hmiss Hraises Hsame.
  set (k := entered_key inp0 s) in *.
  assert (vector_store_cache (state_of (run inp0 s)) !! vector_store_key k =
          Some (MkCached None [StError ("Error initializing vector store: " +:+ msg)]))
    as Hcached.
  { destruct (initialize_vector_store_raises _ _ _ Hmiss Hraises) as [s1 Hvs].
    destruct (initialize_vector_store_result_cached k s) as (els & Hentry & Hels).
    rewrite (Hels Hmiss msg Hraises) in Hentry.
    fold k in Hvs. rewrite Hvs in Hentry. simpl in Hentry.
    rewrite (run_without_store _ _ _ _ Hkey Hvs). exact Hentry. }
  destruct (session_caches inps (state_of (run inp0 s))) as [Hkeep _].
  apply Hkeep in Hcached.
  set (s2 := world_moves w' (fst (session inps (state_of (run inp0 s))))) in *.
  assert (initialize_vector_store k s2 =
          (Normal None, s2,
           Invoke "initialize_vector_store" [("api_key", ArgStr k)]
           :: map Render [StError ("Error initializing vector store: " +:+ msg)]))
    as Hvs.
  { rewrite initialize_vector_store_unfold.
    change (vector_store_cache s2) with
      (vector_store_cache (fst (session inps (state_of (run inp0 s))))).
    rewrite Hcached. reflexivity. }
  rewrite <- Hsame in Hvs, Hkey.
  rewrite (run_without_store _ _ _ _ Hkey Hvs), Hsame.
  split; [reflexivity|]. split; reflexivity.
Qed.

(** X9: a failure to build the chain is remembered in the same way: once a
    run has obtained the store but failed to build the chain for a key,
    every later run with that key builds nothing, connects to nothing, shows
    the error of the first failure again and stops. *)
Theorem failed_chain_stays_failed (inp0 inp : Input) (inps : list Input) (s s1 : State)
    (vs : VectorStore) (evs1 : list Event) (msg : string) (w' : W) :
  truthy (entered_key inp0 s) = true ->
  initialize_vector_store (entered_key inp0 s) s = (Normal (Some vs), s1, evs1) ->
  qa_chain_cache s1 !! qa_chain_key None (entered_key inp0 s) = None ->
  fst (from_chain_type (chain_args_for vs (entered_key inp0 s)) (world s1)) = Raises msg ->
  entered_key inp (world_moves w' (fst (session inps (state_of (run inp0 s))))) =
    entered_key inp0 s ->
  outcome_of (run inp (world_moves w' (fst (session inps (state_of (run inp0 s)))))) =
    Stopped /\
  externs (events_of (run inp (world_moves w' (fst (session inps (state_of (run inp0 s)))))))
    = [] /\
  StError ("Error initializing QA chain: " +:+ msg) ∈
    rendered (events_of
                (run inp (world_moves w' (fst (session inps (state_of (run inp0 s))))))).
Proof.
  intros Hkey Hvs Hmiss Hraises Hsame.
  set (k := entered_key inp0 s) in *.
  assert (Hmiss' : qa_chain_cache s1 !! qa_chain_key (Some vs) k = None).
  { rewrite qa_chain_key_eq. rewrite qa_chain_key_eq in Hmiss. exact Hmiss. }
  destruct (initialize_qa_chain_raises _ _ _ _ Hmiss' Hraises) as [s2 Hqa].
  assert (exists els,
            vector_store_cache (state_of (run inp0 s)) !! vector_store_key k =
            Some (MkCached (Some vs) els)) as [els Hstore].
  { destruct (initialize_vector_store_result_cached k s) as (els & Hentry & _).
    rewrite Hvs in Hentry. simpl in Hentry. exists els.
    destruct (initialize_qa_chain_caches vs k s1) as (Hv & _).
    rewrite Hqa in Hv. simpl in Hv.
    rewrite (run_without_chain _ _ _ _ _ _ _ Hkey Hvs Hqa). simpl.
    rewrite Hv. exact Hentry. }
  assert (qa_chain_cache (state_of (run inp0 s)) !! qa_chain_key None k =
          Some (MkCached None [StError ("Error initializing QA chain: " +:+ msg)]))
    as Hchain.
  { destruct (initialize_qa_chain_result_cached vs k s1) as (els' & Hentry & Hels).
    rewrite (Hels Hmiss msg Hraises) in Hentry.
    rewrite Hqa in Hentry. simpl in Hentry.
    rewrite (run_without_chain _ _ _ _ _ _ _ Hkey Hvs Hqa). exact Hentry. }
  destruct (session_caches inps (state_of (run inp0 s))) as [Hkeepv Hkeepq].
  apply Hkeepv in Hstore. apply Hkeepq in Hchain.
  set (s3 := world_moves w' (fst (session inps (state_of (run inp0 s))))) in *.
  assert (initialize_vector_store k s3 =
          (Normal (Some vs), s3,
           Invoke "initialize_vector_store" [("api_key", ArgStr k)] :: map Render els))
    as Hvs3.
  { rewrite initialize_vector_store_unfold.
    change (vector_store_cache s3) with
      (vector_store_cache (fst (session inps (state_of (run inp0 s))))).
    rewrite Hstore. reflexivity. }
  assert (initialize_qa_chain (Some vs) k s3 =
          (Normal None, s3,
           Invoke "initialize_qa_chain"
             [("_vector_store", ArgRef (vs_ref vs)); ("api_key", ArgStr k)]
           :: map Render [StError ("Error initializing QA chain: " +:+ msg)]))
    as Hqa3.
  { rewrite initialize_qa_chain_unfold. cbv zeta. rewrite qa_chain_key_eq.
    change (qa_chain_cache s3) with
      (qa_chain_cache (fst (session inps (state_of (run inp0 s))))).
    rewrite qa_chain_key_eq in Hchain. rewrite Hchain. reflexivity. }
  rewrite <- Hsame in Hvs3, Hqa3, Hkey.
  rewrite (run_without_chain _ _ _ _ _ _ _ Hkey Hvs3 Hqa3), Hsame.
  split; [reflexivity|]. split.
  - unfold events_of; cbn [snd]. unfold externs, header. simpl.
    rewrite List.filter_app. fold (externs (map Render els)). rewrite externs_replay.
    reflexivity.
  - unfold events_of; cbn [snd]. rewrite !rendered_app.
    apply elem_of_app. right. apply elem_of_app. right.
    simpl. apply list_elem_of_singleton. reflexivity.
Qed.


(** *** Handles are shared by the sessions of a process *)

Lemma run_leaves_key_cached (inp : Input) (s : State) :
  truthy (entered_key inp s) = true ->
  is_Some (vector_store_cache (state_of (run inp s))
             !! vector_store_key (entered_key inp s)) /\
  (is_Some (qa_chain_cache (state_of (run inp s)) !! qa_chain_key None (entered_key inp s)) \/
   exists els,
     vector_store_cache (state_of (run inp s)) !! vector_store_key (entered_key inp s) =
     Some (MkCached None els)).
Proof.
  intros Hkey.
  destruct (initialize_vector_store_result_cached (entered_key inp s) s)
    as (els & Hentry & _).
  destruct (run_cases inp s)
    as [[Hk Hrun]|[[Hk (s1 & evs1 & Hvs & ->)]
       |[[Hk (vs & s1 & s2 & evs1 & evs2 & Hvs & Hqa & ->)]
        |[Hk (vs & ch & s1 & s2 & s3 & evs1 & evs2 & evs3 & Hvs & Hqa & Hpq & ->)]]]].
  - rewrite Hk in Hkey. discriminate.
  - rewrite Hvs in Hentry. simpl in *. rewrite Hentry. split; eauto.
  - rewrite Hvs in Hentry. simpl in Hentry.
    destruct (initialize_qa_chain_caches vs (entered_key inp s) s1) as (Hv & Hin & _).
    rewrite Hqa in Hv, Hin. simpl in *. rewrite Hv, Hentry.
    rewrite qa_chain_key_eq in Hin. rewrite qa_chain_key_eq. split; eauto.
  - rewrite Hvs in Hentry. simpl in Hentry.
    destruct (initialize_qa_chain_caches vs (entered_key inp s) s1) as (Hv & Hin & _).
    destruct (process_question_caches (entered_question inp) (Some ch) s2) as (Hv3 & Hq3 & _).
    rewrite Hqa in Hv, Hin. rewrite Hpq in Hv3, Hq3. simpl in *.
    rewrite Hv3, Hv, Hq3, Hentry.
    rewrite qa_chain_key_eq in Hin. rewrite qa_chain_key_eq. split; eauto.
Qed.

Lemma run_builds_store (inp : Input) (s : State) :
  builds (events_of (run inp s)) <> [] ->
  exists vs s1 evs1,
    initialize_vector_store (entered_key inp s) s = (Normal (Some vs), s1, evs1).
Proof.
  intros Hbuilt.
  destruct (initialize_vector_store_trace (entered_key inp s) s) as (_ & _ & Hb & _).
  destruct (run_cases inp s)
    as [[Hk Hrun]|[[Hk (s1 & evs1 & Hvs & Hrun)]
       |[[Hk (vs & s1 & s2 & evs1 & evs2 & Hvs & Hqa & Hrun)]
        |[Hk (vs & ch & s1 & s2 & s3 & evs1 & evs2 & evs3 & Hvs & Hqa & Hpq & Hrun)]]]];
    eauto.
  - exfalso. apply Hbuilt. rewrite Hrun. reflexivity.
  - exfalso. apply Hbuilt. rewrite Hrun. rewrite Hvs in Hb. simpl in Hb.
    unfold events_of; cbn [snd]. unfold builds in *.
    rewrite omap_header by reflexivity. exact Hb.
Qed.

(** X10: the handles belong to the process, not to the session: after a
    run with a key, a run with the same key in a new browser session
    connects to nothing and builds nothing; it is served from what the
    first session left. *)
Theorem handles_shared_across_sessions (inp0 inp : Input) (s : State) :
  truthy (entered_key inp0 s) = true ->
  key_field inp = Some (entered_key inp0 s) ->
  connects (events_of (run inp (new_session (state_of (run inp0 s))))) = [] /\
  builds (events_of (run inp (new_session (state_of (run inp0 s))))) = [].
Proof.
  intros Hkey Htyped.
  destruct (run_leaves_key_cached inp0 s Hkey) as [[c Hstore] Hchain].
  set (s' := new_session (state_of (run inp0 s))).
  assert (entered_key inp s' = entered_key inp0 s) as Hsame.
  { unfold entered_key at 1. rewrite Htyped. reflexivity. }
  split.
  - destruct (run_connects inp s') as [Hnone|(_ & Hmiss & _)]; [exact Hnone|].
    rewrite Hsame in Hmiss.
    change (vector_store_cache s') with (vector_store_cache (state_of (run inp0 s))) in Hmiss.
    rewrite Hstore in Hmiss. discriminate.
  - destruct (run_builds inp s') as [Hnone|(Hone & Hmiss & _)]; [exact Hnone|].
    rewrite Hsame in Hmiss.
    change (qa_chain_cache s') with (qa_chain_cache (state_of (run inp0 s))) in Hmiss.
    destruct Hchain as [[c' Hc']|[els Hels]].
    + rewrite Hc' in Hmiss. discriminate.
    + destruct (run_builds_store inp s') as (vs & s1 & evs1 & Hvs).
      { rewrite Hone. discriminate. }
      rewrite Hsame, initialize_vector_store_unfold in Hvs.
      change (vector_store_cache s') with (vector_store_cache (state_of (run inp0 s))) in Hvs.
      rewrite Hels in Hvs. discriminate.
Qed.

(** *** Other edges of the three functions *)

(** X11: a response of the chain that has no [answer] entry is handled like
    an exception of the chain: [get_answer] has made the call, renders the
    error naming the missing key and returns [None]. *)
Theorem answer_missing_from_response (question : string) (ch : Chain) (s : State)
    (response : Response) :
  fst (chain_call ch question (world s)) = Returns response ->
  dict_get "answer" response = None ->
  caught (get_answer question (Some ch) s) "Error getting answer: " "'answer'" /\
  questions (events_of (get_answer question (Some ch) s)) = [(ch, question)].
Proof.
  intros Hcall Hmissing. rewrite get_answer_unfold. cbv zeta.
  destruct (chain_call _ _ _) as [[response'|msg] w]; simpl in Hcall; [|discriminate].
  injection Hcall as ->. rewrite Hmissing.
  split; [|reflexivity].
  split; [reflexivity|]. split; [reflexivity|apply error_text_contains].
Qed.

(** X12: [initialize_qa_chain] called without a store makes no external
    call, renders the error of the failed attribute lookup and returns
    [None]; and because the store is no part of the cache key, that [None]
    is what a later call with the same key and a real store returns, again
    without any external call. *)
Theorem chain_without_store_is_remembered (vs : VectorStore) (api_key : string) (s : State) :
  qa_chain_cache s !! qa_chain_key None api_key = None ->
  caught (initialize_qa_chain None api_key s) "Error initializing QA chain: "
    "'NoneType' object has no attribute 'as_retriever'" /\
  externs (events_of (initialize_qa_chain None api_key s)) = [] /\
  outcome_of (initialize_qa_chain (Some vs) api_key
                (state_of (initialize_qa_chain None api_key s))) = Normal None /\
  externs (events_of (initialize_qa_chain (Some vs) api_key
                        (state_of (initialize_qa_chain None api_key s)))) = [].
Proof.
  intros Hmiss.
  assert (caught (initialize_qa_chain None api_key s) "Error initializing QA chain: "
            "'NoneType' object has no attribute 'as_retriever'" /\
          externs (events_of (initialize_qa_chain None api_key s)) = []) as [Hcaught Hquiet].
  { rewrite initialize_qa_chain_unfold. cbv zeta. rewrite Hmiss.
    split; [|reflexivity].
    split; [reflexivity|]. split; [reflexivity|apply error_text_contains]. }
  split; [exact Hcaught|]. split; [exact Hquiet|].
  rewrite initialize_qa_chain_again.
  split; [exact (proj1 Hcaught)|]. simpl. apply externs_replay.
Qed.

(** X13: the script writes one entry of [st.session_state] only: whatever
    else a session holds is left as it was by any number of runs. *)
Theorem other_session_entries_untouched (inps : list Input) (s : State) (name : string) :
  name <> "openai_api_key" ->
  session_state (fst (session inps s)) !! name = session_state s !! name.
Proof.
  intros Hother. revert s. induction inps as [|inp rest IH]; intros s; [reflexivity|].
  destruct (session_cons inp rest s) as [-> _]. rewrite IH, run_session_state.
  assert (session_state (session_ready s) !! name = session_state s !! name) as Hready.
  { unfold session_ready. destruct (session_state s !! "openai_api_key"); [reflexivity|].
    simpl. apply lookup_insert_ne. congruence. }
  destruct (truthy (entered_key inp s)); [|exact Hready].
  rewrite lookup_insert_ne by congruence. exact Hready.
Qed.


(** *** The guard of line 90 *)

Lemma initialize_vector_store_invoked (api_key : string) (s : State) :
  exists rest,
    events_of (initialize_vector_store api_key s) =
    Invoke "initialize_vector_store" [("api_key", ArgStr api_key)] :: rest.
Proof.
  rewrite initialize_vector_store_unfold.
  destruct (vector_store_cache s !! _) as [c|]; [simpl; eauto|].
  destruct (from_existing_graph _ _) as [[u|msg] w]; simpl; eauto.
Qed.

(** Every trace starts with the header, which makes no call. *)
Lemma run_starts_with_header (inp : Input) (s : State) :
  exists body, events_of (run inp s) = header (entered_key inp s) ++ body.
Proof.
  rewrite run_unfold.
  destruct (main_block inp _ _) as [[[u|msg|] s1] evs]; simpl; eauto.
Qed.

Lemma non_empty_key_reaches_store (inp : Input) (s : State) :
  entered_key inp s <> "" ->
  In (Invoke "initialize_vector_store" [("api_key", ArgStr (entered_key inp s))])
     (events_of (run inp s)).
Proof.
  intros Hkey.
  destruct (initialize_vector_store_invoked (entered_key inp s) s) as [rest Hfirst].
  destruct (run_cases inp s)
    as [[Hk _]|[[_ (s1 & evs1 & Hvs & ->)]
       |[[_ (vs & s1 & s2 & evs1 & evs2 & Hvs & Hqa & ->)]
        |[_ (vs & ch & s1 & s2 & s3 & evs1 & evs2 & evs3 & Hvs & Hqa & Hpq & ->)]]]];
    [contradiction| | |]; rewrite Hvs in Hfirst; simpl in Hfirst; subst evs1;
    simpl; auto 10.
Qed.

(** C1 (amended): the guard of the key field is the truthiness of the
    string.  For the empty API key a run makes no call to
    [initialize_vector_store], [initialize_qa_chain] or [get_answer], reaches
    no external service, ends normally and shows the warning.  For every
    non-empty API key, the keys made of whitespace only included, the run
    enters [initialize_vector_store] with that key. *)
Theorem key_guard_by_truthiness (inp : Input) (s : State) :
  (entered_key inp s = "" ->
   no_calls (events_of (run inp s)) /\
   In (StWarning key_warning) (page (events_of (run inp s))) /\
   outcome_of (run inp s) = Normal tt) /\
  (entered_key inp s <> "" ->
   In (Invoke "initialize_vector_store" [("api_key", ArgStr (entered_key inp s))])
      (events_of (run inp s))).
Proof.
  split; [apply empty_key_guarded|apply non_empty_key_reaches_store].
Qed.

(** *** Calls and the key field, run by run *)

Lemma session_log_traces (inps : list Input) (s : State) :
  map snd (session_log inps s) = snd (session inps s).
Proof.
  revert s. induction inps as [|inp rest IH]; intros s; [reflexivity|].
  destruct (session_cons inp rest s) as [_ ->]. simpl. rewrite IH. reflexivity.
Qed.

(** In the trace of a run a call comes after the key field, and the key
    field has then returned a non-empty key. *)
Lemma run_call_after_key (inp : Input) (s : State) (before after : list Event) (ev : Event) :
  events_of (run inp s) = before ++ ev :: after ->
  is_call ev = true ->
  entered_key inp s <> "" /\
  In (Render (StTextInput key_label (entered_key inp s))) before.
Proof.
  intros Htrace Hcall. split.
  - intros Hempty. pose proof (empty_key_no_calls inp s Hempty) as Hnone.
    unfold no_calls in Hnone. rewrite Htrace, List.filter_app in Hnone.
    simpl in Hnone. rewrite Hcall in Hnone.
    destruct (List.filter is_call before); discriminate Hnone.
  - destruct (run_starts_with_header inp s) as [body Hheader].
    rewrite Hheader in Htrace. unfold header in Htrace.
    destruct before as [|b1 before]; simpl in Htrace.
    { injection Htrace as Hev _. subst ev. discriminate Hcall. }
    injection Htrace as _ Htrace. destruct before as [|b2 before]; simpl in Htrace.
    { injection Htrace as Hev _. subst ev. discriminate Hcall. }
    injection Htrace as _ Htrace. destruct before as [|b3 before]; simpl in Htrace.
    { injection Htrace as Hev _. subst ev. discriminate Hcall. }
    injection Htrace as Hkey _. subst b3. simpl. auto.
Qed.

(** C4: in every run of every session, whatever the process and the
    session hold, a run whose key field is empty enters none of
    [initialize_vector_store], [initialize_qa_chain] and [get_answer] and
    reaches no external service; and whenever a run does make such a call,
    the key field has been read before it in that run and has returned a
    non-empty key. *)
Theorem no_call_with_empty_key (inps : list Input) (s : State) :
  Forall (fun r : string * list Event =>
            (fst r = "" -> no_calls (snd r)) /\
            (forall (before after : list Event) (ev : Event),
               snd r = before ++ ev :: after ->
               is_call ev = true ->
               fst r <> "" /\ In (Render (StTextInput key_label (fst r))) before))
         (session_log inps s).
Proof.
  revert s. induction inps as [|inp rest IH]; intros s; [constructor|].
  simpl. constructor; [|apply IH]. simpl. split.
  - apply empty_key_no_calls.
  - intros before after ev. apply run_call_after_key.
Qed.


End Coverage.


(** ** The properties on the concrete world *)

Module Examples.

Import Demo.

(** A whitespace-only key is a non-empty string, so the guard of line 90
    lets it through: the run calls [initialize_vector_store] and shows no
    warning. *)
Lemma blank_key_not_guarded :
  ~ (forall key : string, is_blank key = true -> @key_guard demo key).
Proof.
  intros Hguard.
  destruct (Hguard " " eq_refl (types " " "") start eq_refl) as [Hcalls _].
  vm_compute in Hcalls. discriminate Hcalls.
Qed.

Lemma empty_key_guarded_witness :
  entered_key (types "" "What is Netflix's primary business?") two_stores = "" /\
  no_calls (events_of (run (types "" "What is Netflix's primary business?") two_stores)).
Proof.
  split; [reflexivity|].
  apply (empty_key_guarded (types "" "What is Netflix's primary business?") two_stores).
  reflexivity.
Defined.



Lemma no_call_before_key_witness :
  no_key_held (new_session two_stores) /\
  Forall no_key_typed idle_visit /\
  Forall no_calls (snd (session idle_visit (new_session two_stores))).
Proof.
  assert (no_key_held (new_session two_stores)) as Hheld by (left; reflexivity).
  assert (Forall no_key_typed idle_visit) as Htyped.
  { constructor; [left; reflexivity|].
    constructor; [right; reflexivity|constructor]. }
  split; [exact Hheld|]. split; [exact Htyped|].
  apply (no_call_before_key idle_visit (new_session two_stores) (types "sk-1" "")
           Hheld Htyped).
Defined.

(** The key field is cleared after a key was entered: the session keeps the
    key. *)
Lemma cleared_field_keeps_key : ~ @key_field_mirrored demo.
Proof.
  intros Hmirror.
  specialize (Hmirror (types "" "") (state_of (run (types "sk-1" "") start))).
  vm_compute in Hmirror. discriminate Hmirror.
Qed.

Lemma connection_parameters_witness :
  In (Extern (CallFromExistingGraph (@graph_kwargs demo "sk-1")))
     (events_of (initialize_vector_store "sk-1" start)) /\
  kwarg "url" (@graph_kwargs demo "sk-1") = Some (PyStr "bolt://localhost:7687") /\
  kwarg "database" (@graph_kwargs demo "sk-1") = None.
Proof.
  assert (In (Extern (CallFromExistingGraph (@graph_kwargs demo "sk-1")))
             (events_of (initialize_vector_store "sk-1" start))) as Hcall.
  { right. left. reflexivity. }
  split; [exact Hcall|].
  destruct (connection_parameters "sk-1" start (@graph_kwargs demo "sk-1") Hcall)
    as (Hurl & _ & _ & Hdb & _).
  split; [exact Hurl|exact Hdb].
Defined.

Lemma exceptions_are_caught_witness :
  (truthy (entered_key (types "sk-bad" "Hello?") start) = true /\
   outcome_of (run (types "sk-bad" "Hello?") start) = Stopped) /\
  (truthy (entered_key (types "sk-nochat" "Hello?") start) = true /\
   outcome_of (run (types "sk-nochat" "Hello?") start) = Stopped) /\
  (truthy (entered_key asks_apple start) = true /\
   halts_at (run asks_apple start) (CallChain chain1 "Where is Apple headquartered?")
     "Error getting answer: Request timed out" footer).
Proof.
  split; [|split].
  - split; [reflexivity|].
    apply (proj1 (exceptions_are_caught (types "sk-bad" "Hello?") start
                    "Incorrect API key provided" eq_refl)); reflexivity.
  - split; [reflexivity|].
    apply (proj1 (proj2 (exceptions_are_caught (types "sk-nochat" "Hello?") start
                           "model not available" eq_refl))
             {| vs_ref := 0; vs_kwargs := @graph_kwargs demo "sk-nochat" |}
             (state_of (initialize_vector_store "sk-nochat" start))
             (events_of (initialize_vector_store "sk-nochat" start)));
      reflexivity.
  - split; [reflexivity|].
    apply (proj2 (proj2 (exceptions_are_caught asks_apple start
                           "Request timed out" eq_refl))
             store1
             (state_of (initialize_vector_store "sk-1" start))
             (events_of (initialize_vector_store "sk-1" start))
             chain1
             (state_of (initialize_qa_chain (Some store1) "sk-1"
                          (state_of (initialize_vector_store "sk-1" start))))
             (events_of (initialize_qa_chain (Some store1) "sk-1"
                          (state_of (initialize_vector_store "sk-1" start)))));
      reflexivity.
Defined.



Lemma answer_is_rendered_witness :
  cache_ok start /\
  truthy "Netflix is a streaming entertainment service." = true /\
  List.filter is_error (rendered (events_of (run asks_netflix start))) = [].
Proof.
  split; [apply fresh_process_cache_ok|]. split; [reflexivity|].
  apply (answer_is_rendered asks_netflix start
           (state_of (initialize_vector_store "sk-1" start))
           (state_of (initialize_qa_chain (Some store1) "sk-1"
                        (state_of (initialize_vector_store "sk-1" start))))
           (state_of (initialize_qa_chain (Some store1) "sk-1"
                        (state_of (initialize_vector_store "sk-1" start))))
           store1 chain1
           (events_of (initialize_vector_store "sk-1" start))
           (events_of (initialize_qa_chain (Some store1) "sk-1"
                         (state_of (initialize_vector_store "sk-1" start))))
           [ Invoke "get_answer"
               [("question", ArgStr "What is Netflix's primary business?");
                ("qa_chain", ArgRef 1)];
             Extern (CallChain chain1 "What is Netflix's primary business?") ]
           "Netflix is a streaming entertainment service.");
    solve [apply fresh_process_cache_ok | vm_compute; reflexivity].
Defined.

Lemma empty_answer_renders_nothing_witness :
  cache_ok answered /\
  truthy (entered_question asks_life) = true /\
  answer_display (rendered (events_of (run asks_life answered))) = [].
Proof.
  assert (cache_ok answered) as Hok.
  { apply run_cache_ok, fresh_process_cache_ok. }
  split; [exact Hok|]. split; [vm_compute; reflexivity|].
  apply (empty_answer_renders_nothing asks_life answered answered answered answered
           store1 chain1
           (events_of (initialize_vector_store "sk-1" answered))
           (events_of (initialize_qa_chain (Some store1) "sk-1" answered))
           (events_of (get_answer (entered_question asks_life) (Some chain1) answered))
           Hok); vm_compute; reflexivity.
Defined.


Lemma key_guard_by_truthiness_witness :
  (entered_key (types "" "Hello?") two_stores = "" /\
   no_calls (events_of (run (types "" "Hello?") two_stores))) /\
  (is_blank "  " = true /\
   entered_key (types "  " "") start <> "" /\
   In (Invoke "initialize_vector_store" [("api_key", ArgStr "  ")])
      (events_of (run (types "  " "") start))).
Proof.
  split.
  - split; [reflexivity|].
    apply (proj1 (key_guard_by_truthiness (types "" "Hello?") two_stores)). reflexivity.
  - assert (entered_key (types "  " "") start <> "") as Hkey by discriminate.
    split; [reflexivity|]. split; [exact Hkey|].
    apply (proj2 (key_guard_by_truthiness (types "  " "") start) Hkey).
Defined.

(** The session holds a key and the key field has been emptied. *)
Lemma no_call_with_empty_key_witness :
  session_key answered = Some "sk-1" /\
  entered_key (types "" "Hello?") answered = "" /\
  no_calls (events_of (run (types "" "Hello?") answered)).
Proof.
  split; [vm_compute; reflexivity|]. split; [reflexivity|].
  destruct (Forall_inv (no_call_with_empty_key [types "" "Hello?"] answered))
    as [Hempty _].
  apply Hempty. reflexivity.
Defined.


End Examples.

(** ** The further properties on the concrete world *)

Module CoverageExamples.

Import Demo.

Lemma cached_entries_persist_witness :
  vector_store_cache answered !! vector_store_key "sk-1" = Some (MkCached (Some store1) []) /\
  vector_store_cache (fst (session visits answered)) !! vector_store_key "sk-1" =
  Some (MkCached (Some store1) []).
Proof.
  assert (vector_store_cache answered !! vector_store_key "sk-1" =
          Some (MkCached (Some store1) [])) as Hentry by (vm_compute; reflexivity).
  split; [exact Hentry|].
  apply (proj1 (cached_entries_persist visits answered (vector_store_key "sk-1"))), Hentry.
Defined.

Lemma one_connection_per_key_witness :
  NoDup (connects (concat (snd (session visits start)))).
Proof. apply (one_connection_per_key visits start). Defined.

Lemma one_chain_per_key_witness :
  NoDup (builds (concat (snd (session visits start)))).
Proof. apply (one_chain_per_key visits start). Defined.

Lemma question_asked_once_verbatim_witness :
  truthy (entered_question (types "sk-1" "")) = false /\
  questions (events_of (run (types "sk-1" "") answered)) = [].
Proof.
  split; [reflexivity|].
  apply (proj2 (question_asked_once_verbatim (types "sk-1" "") answered)). reflexivity.
Defined.

Lemma question_goes_to_own_chain_witness :
  keys_ok answered /\
  (chain1, "Where is Apple headquartered?") ∈ questions (events_of (run asks_apple answered)) /\
  llm_api_key (llm (chain_args chain1)) = entered_key asks_apple answered.
Proof.
  assert (keys_ok answered) as Hok by apply run_keys_ok, keys_ok_fresh.
  assert ((chain1, "Where is Apple headquartered?")
            ∈ questions (events_of (run asks_apple answered))) as Hasked.
  { assert (questions (events_of (run asks_apple answered)) =
            [(chain1, "Where is Apple headquartered?")]) as -> by (vm_compute; reflexivity).
    apply list_elem_of_singleton. reflexivity. }
  split; [exact Hok|]. split; [exact Hasked|].
  apply (question_goes_to_own_chain asks_apple answered chain1
           "Where is Apple headquartered?" Hok Hasked).
Defined.

Lemma failed_store_stays_failed_witness :
  vector_store_cache start !! vector_store_key "sk-bad" = None /\
  outcome_of (run (types "sk-bad" "Again?")
                (@world_moves demo tt (fst (session visits
                                        (state_of (run (types "sk-bad" "Hello?") start))))))
  = Stopped.
Proof.
  split; [reflexivity|].
  apply (failed_store_stays_failed (types "sk-bad" "Hello?") (types "sk-bad" "Again?")
           visits start "Incorrect API key provided" (tt : @W demo));
    vm_compute; reflexivity.
Defined.

Lemma failed_chain_stays_failed_witness :
  qa_chain_cache (state_of (initialize_vector_store "sk-nochat" start))
    !! qa_chain_key None "sk-nochat" = None /\
  outcome_of (run (types "sk-nochat" "Again?")
                (@world_moves demo tt (fst (session visits
                                        (state_of (run (types "sk-nochat" "Hello?") start))))))
  = Stopped.
Proof.
  split; [reflexivity|].
  apply (failed_chain_stays_failed (types "sk-nochat" "Hello?") (types "sk-nochat" "Again?")
           visits start (state_of (initialize_vector_store "sk-nochat" start))
           store_nochat (events_of (initialize_vector_store "sk-nochat" start))
           "model not available" (tt : @W demo));
    vm_compute; reflexivity.
Defined.

Lemma handles_shared_across_sessions_witness :
  truthy (entered_key asks_netflix start) = true /\
  key_field asks_apple = Some (entered_key asks_netflix start) /\
  connects (events_of (run asks_apple (new_session (state_of (run asks_netflix start))))) = [].
Proof.
  split; [reflexivity|]. split; [reflexivity|].
  apply (handles_shared_across_sessions asks_netflix asks_apple start); reflexivity.
Defined.

Lemma answer_missing_from_response_witness :
  dict_get "answer"
    [("result", "Netflix is a streaming entertainment service."); ("sources", "")] = None /\
  caught (get_answer "Hello?" (Some chain1) (fresh_process (tt : @W demo_odd)))
    "Error getting answer: " "'answer'".
Proof.
  split; [reflexivity|].
  apply (answer_missing_from_response "Hello?" chain1 (fresh_process (tt : @W demo_odd))
           [("result", "Netflix is a streaming entertainment service."); ("sources", "")]);
    reflexivity.
Defined.

Lemma chain_without_store_is_remembered_witness :
  qa_chain_cache start !! qa_chain_key None "sk-1" = None /\
  outcome_of (initialize_qa_chain (Some store1) "sk-1"
                (state_of (initialize_qa_chain None "sk-1" start))) = Normal None.
Proof.
  split; [reflexivity|].
  apply (chain_without_store_is_remembered store1 "sk-1" start). reflexivity.
Defined.

Lemma other_session_entries_untouched_witness :
  "theme" <> "openai_api_key" /\
  session_state (fst (session visits start)) !! "theme" = session_state start !! "theme".
Proof.
  assert ("theme" <> "openai_api_key") as Hother by discriminate.
  split; [exact Hother|].
  apply (other_session_entries_untouched visits start "theme" Hother).
Defined.

End CoverageExamples.
